(** * monitor_logins: baseline statistics, anomaly classification and the
      streak-based alert state machine

    Shallow embedding of [src/monitor_logins.py].

    - A pandas [DataFrame] with a [DatetimeIndex] and one value column is a
      list of rows in index order; a timestamp is its integer number of
      nanoseconds since 1970-01-01T00:00 (the [datetime64[ns]] payload).
    - A function that answers [None] after printing an error is a function
      into [option]; a [DataFrame] argument that may be [None] is an [option].
      The two stages are given twice: on frames that have a [DatetimeIndex]
      and the column [measurement_value], and on any frame a caller may pass
      ([calculate_baseline_stats_any], [detect_anomalies_any]), where the
      [try] block can raise and the [except] branch answers [None].
    - Measurements, means and standard deviations are real numbers, as the
      data model of the specification has them; [NaN] (the missing value of a
      left merge, the standard deviation of a single sample) is [None] in an
      [option R] column until [fillna] replaces it.
    - The table returned by [groupby(...).agg(...)] has one row per key: it is
      a finite map from minute-of-week to (mean, std). *)

From Stdlib Require Import ZArith Reals Lra Lia List.
From stdpp Require Import base option list gmap.

Local Open Scope Z_scope.

(** ** Configuration constants (module level in the source) *)

Definition STD_DEV_THRESHOLD : R := 3.0%R.
Definition CONSECUTIVE_MINUTES_THRESHOLD : Z := 10.
Definition BASELINE_ZERO_THRESHOLD : R := 200%R.
Definition STD_DEV_EPSILON : R := 1e-6%R.

(** ** Calendar fields of a timestamp *)

Module Calendar.

Definition ns_per_minute : Z := 60 * 1000000000.
Definition ns_per_hour : Z := 60 * ns_per_minute.
Definition ns_per_day : Z := 24 * ns_per_hour.

(** Monday is 0 and Sunday is 6; day 0 of the epoch was a Thursday. *)
Definition dayofweek (t : Z) : Z := (t / ns_per_day + 3) mod 7.
Definition hour (t : Z) : Z := (t mod ns_per_day) / ns_per_hour.
Definition minute (t : Z) : Z := (t mod ns_per_hour) / ns_per_minute.

(** [index.dayofweek * 24 * 60 + index.hour * 60 + index.minute] *)
Definition minute_of_week (t : Z) : Z :=
  dayofweek t * 24 * 60 + hour t * 60 + minute t.

End Calendar.

(** ** Frames and series *)

(** A row of a loaded frame: the index entry and [measurement_value]. *)
Record TimePoint := mkPoint { time : Z; measurement_value : R }.

Inductive AnomalyType := Normal | Zero | Low | High.

#[global] Instance AnomalyType_eq_dec : EqDecision AnomalyType.
Proof. solve_decision. Defined.

#[global] Instance Rlt_decision (x y : R) : Decision (x < y)%R := Rlt_dec x y.
#[global] Instance Rgt_decision (x y : R) : Decision (x > y)%R := Rgt_dec x y.
#[global] Instance Rge_decision (x y : R) : Decision (x >= y)%R := Rge_dec x y.
#[global] Instance Req_decision : EqDecision R := Req_dec_T.

(** [s.fillna(d)]: replace the missing entries of a series. *)
Definition fillna (d : R) (s : list (option R)) : list R := default d <$> s.

(** Element-wise operations on aligned series. *)
Definition series_add (a b : list R) : list R := zip_with Rplus a b.
Definition series_sub (a b : list R) : list R := zip_with Rminus a b.
Definition series_scale (c : R) (a : list R) : list R := Rmult c <$> a.
Definition series_maximum (c : R) (a : list R) : list R := Rmax c <$> a.
Definition series_lt (a b : list R) : list bool :=
  zip_with (λ x y, bool_decide (x < y)%R) a b.
Definition series_gt (a b : list R) : list bool :=
  zip_with (λ x y, bool_decide (x > y)%R) a b.
Definition series_gt_const (a : list R) (c : R) : list bool :=
  (λ x, bool_decide (x > c)%R) <$> a.
Definition series_ge_const (a : list R) (c : R) : list bool :=
  (λ x, bool_decide (x >= c)%R) <$> a.
Definition series_eq_const {A} `{EqDecision A} (a : list A) (c : A) : list bool :=
  (λ x, bool_decide (x = c)) <$> a.
Definition mask_or (a b : list bool) : list bool := zip_with orb a b.
Definition mask_and (a b : list bool) : list bool := zip_with andb a b.

(** [s.loc[mask] = c]: overwrite the entries the mask selects. *)
Definition loc_assign {A} (mask : list bool) (c : A) (s : list A) : list A :=
  zip_with (λ (b : bool) old, if b then c else old) mask s.

(** ** BaselineAggregator: [calculate_baseline_stats] *)

Definition series_sum (g : list R) : R := foldr Rplus 0%R g.

(** The [mean] aggregation of a group. *)
Definition agg_mean (g : list R) : R := (series_sum g / INR (length g))%R.

(** The [std] aggregation of a group (one delta degree of freedom): missing
    when the group has fewer than two values. *)
Definition agg_std (g : list R) : option R :=
  if decide (length g ≤ 1)%nat then None
  else Some (sqrt (series_sum ((λ x, Rsqr (x - agg_mean g)) <$> g)
                   / INR (length g - 1)))%R.

(** [groupby(key)[column]]: the values of each key, in frame order. *)
Definition groupby (keys : list Z) (values : list R) : gmap Z (list R) :=
  foldr (λ kv groups, <[kv.1 := kv.2 :: default [] (groups !! kv.1)]> groups)
        ∅ (zip keys values).

Definition calculate_baseline_stats (baseline_df : option (list TimePoint))
  : option (gmap Z (R * R)) :=
  match baseline_df with
  | None => None
  | Some df =>
      let minute_of_week := (λ p, Calendar.minute_of_week (time p)) <$> df in
      let baseline_stats :=
        (λ g, (agg_mean g, agg_std g))
          <$> groupby minute_of_week (measurement_value <$> df) in
      Some ((λ ms : R * option R, (ms.1, default 0%R ms.2)) <$> baseline_stats)
  end.

(** ** AnomalyClassifier: [detect_anomalies] *)

(** A row of the frame [detect_anomalies] returns: the measured point and the
    columns added to it. *)
Record Verdict := mkVerdict {
  point : TimePoint;
  minute_of_week : Z;
  mean : R;
  std : R;
  upper_bound : R;
  lower_bound : R;
  is_anomaly : bool;
  anomaly_type : AnomalyType
}.

(** [row_tuple.Index] *)
Definition Index (row : Verdict) : Z := time (point row).

(** [pd.merge(left, right, left_on=key, right_index=True, how='left')]: one
    output row per left row, in left order, with the right row of its key, or
    missing values when the right frame has no such key. *)
Definition merge_left {V} (keys : list Z) (right : gmap Z V) : list (option V) :=
  (λ k, right !! k) <$> keys.

(** Assemble a frame from its aligned columns. *)
Definition with_column {A B} (rows : list (A → B)) (col : list A) : list B :=
  zip_with (λ f x, f x) rows col.

(** The frame and the two masks at the end of the [try] block of
    [detect_anomalies]. *)
Record Classified := mkClassified {
  merged_df : list Verdict;
  deviation_anomaly : list bool;
  zero_anomaly : list bool
}.

Definition detect_anomalies_body (df : list TimePoint) (stats : gmap Z (R * R))
  : Classified :=
  let value : list R := measurement_value <$> df in
  let minute_of_week : list Z :=
    (λ p, Calendar.minute_of_week (time p)) <$> df in
  let merged := merge_left minute_of_week stats in
  let mean := fillna 0 (fmap (M:=option) fst <$> merged) in
  let std := fillna 0 (fmap (M:=option) snd <$> merged) in
  let upper_bound := series_add mean (series_scale STD_DEV_THRESHOLD std) in
  let lower_bound :=
    series_maximum 0 (series_sub mean (series_scale STD_DEV_THRESHOLD std)) in
  let deviation_anomaly :=
    mask_and (mask_or (series_lt value lower_bound) (series_gt value upper_bound))
             (series_gt_const std STD_DEV_EPSILON) in
  let zero_anomaly :=
    mask_and (series_eq_const value 0%R)
             (series_ge_const mean BASELINE_ZERO_THRESHOLD) in
  let is_anomaly := mask_or deviation_anomaly zero_anomaly in
  let anomaly_type : list AnomalyType := (λ _, Normal) <$> df in
  let anomaly_type := loc_assign zero_anomaly Zero anomaly_type in
  let anomaly_type :=
    loc_assign (mask_and (mask_and deviation_anomaly
                                   (series_eq_const anomaly_type Normal))
                         (series_lt value lower_bound))
               Low anomaly_type in
  let anomaly_type :=
    loc_assign (mask_and (mask_and deviation_anomaly
                                   (series_eq_const anomaly_type Normal))
                         (series_gt value upper_bound))
               High anomaly_type in
  mkClassified
    (with_column (with_column (with_column (with_column (with_column
      (with_column (with_column (mkVerdict <$> df)
        minute_of_week) mean) std) upper_bound) lower_bound)
        is_anomaly) anomaly_type)
    deviation_anomaly zero_anomaly.

Definition detect_anomalies (measured_df : option (list TimePoint))
    (baseline_stats : option (gmap Z (R * R))) : option (list Verdict) :=
  match measured_df, baseline_stats with
  | Some df, Some stats => Some (merged_df (detect_anomalies_body df stats))
  | _, _ => None
  end.

(** ** AlertStateMachine: [monitor_and_alert] *)

(** Exceptions the body of a [try] block can raise. *)
Inductive Exn := KeyError | TypeError | IndexError | ValueError | AttributeError.

Definition Result (A : Type) : Type := Exn + A.

#[global] Instance Result_ret : MRet Result := λ A x, inr x.
#[global] Instance Result_bind : MBind Result :=
  λ A B f m, match m with inl e => inl e | inr x => f x end.

(** ** The two stages on any frame

    [calculate_baseline_stats] and [detect_anomalies] above are the two
    functions on frames that have a [DatetimeIndex] and a numeric column
    [measurement_value], and on a table that has the columns [mean] and [std].
    A caller can pass other frames: an operation of the [try] block then
    raises, and the [except] branch prints the error and answers [None]. *)

(** A frame of measurements as a caller may pass it. *)
Inductive Frame :=
| Timed (rows : list TimePoint)
    (* a DatetimeIndex and a numeric column measurement_value *)
| Unmeasured (index : list Z)
    (* a DatetimeIndex, no column measurement_value *)
| Untimed (values : option (list R)).
    (* an index that is no DatetimeIndex, as that of pd.DataFrame(); the
       column measurement_value, if the frame has one *)

(** A frame of statistics as a caller may pass it. *)
Inductive StatsFrame :=
| Table (stats : gmap Z (R * R))
    (* indexed by minute of the week, with the columns mean and std *)
| NoStatistics.
    (* indexed by minute of the week, without these columns *)

(** The lines the two stages print. *)
Inductive StageLine :=
| BaselineCalculated
| BaselineError (e : Exn)
| DetectionComplete
| DetectionError (e : Exn).

(** [df.index.dayofweek], [.hour], [.minute]: only a DatetimeIndex has the
    calendar fields. *)
Definition datetime_index (frame : Frame) : Result (list Z) :=
  match frame with
  | Timed rows => inr (time <$> rows)
  | Unmeasured index => inr index
  | Untimed _ => inl AttributeError
  end.

(** [df['measurement_value']] *)
Definition measurement_column (frame : Frame) : Result (list R) :=
  match frame with
  | Timed rows => inr (measurement_value <$> rows)
  | Unmeasured _ => inl KeyError
  | Untimed (Some values) => inr values
  | Untimed None => inl KeyError
  end.

(** [merged_df['mean']], [merged_df['std']] *)
Definition statistics_columns (stats_frame : StatsFrame)
  : Result (gmap Z (R * R)) :=
  match stats_frame with
  | Table stats => inr stats
  | NoStatistics => inl KeyError
  end.

(** The [try] block of [calculate_baseline_stats]. *)
Definition calculate_baseline_stats_try (frame : Frame)
  : Result (gmap Z (R * R)) :=
  index ← datetime_index frame;
  let minute_of_week := Calendar.minute_of_week <$> index in
  values ← measurement_column frame;
  let baseline_stats :=
    (λ g, (agg_mean g, agg_std g)) <$> groupby minute_of_week values in
  mret ((λ ms : R * option R, (ms.1, default 0%R ms.2)) <$> baseline_stats).

(** [calculate_baseline_stats] on any argument: the guard, the [try] block and
    the [except] branch, with what is printed. *)
Definition calculate_baseline_stats_any (baseline_df : option Frame)
  : option (gmap Z (R * R)) * list StageLine :=
  match baseline_df with
  | None => (None, [])
  | Some frame =>
      match calculate_baseline_stats_try frame with
      | inr baseline_stats => (Some baseline_stats, [BaselineCalculated])
      | inl e => (None, [BaselineError e])
      end
  end.

(** The [try] block of [detect_anomalies]. *)
Definition detect_anomalies_try (frame : Frame) (stats_frame : StatsFrame)
  : Result (list Verdict) :=
  index ← datetime_index frame;
  stats ← statistics_columns stats_frame;
  values ← measurement_column frame;
  mret (merged_df (detect_anomalies_body (zip_with mkPoint index values) stats)).

(** [detect_anomalies] on any arguments. *)
Definition detect_anomalies_any (measured_df : option Frame)
    (baseline_stats : option StatsFrame) : option (list Verdict) * list StageLine :=
  match measured_df, baseline_stats with
  | Some frame, Some stats_frame =>
      match detect_anomalies_try frame stats_frame with
      | inr merged_df => (Some merged_df, [DetectionComplete])
      | inl e => (None, [DetectionError e])
      end
  | _, _ => (None, [])
  end.

(** What [index.get_loc(key)] answers: an integer position when the key occurs
    once; when it occurs several times, the slice of its occurrences if the
    index is sorted, and a boolean mask over the index if it is not. *)
Inductive Loc :=
| IntLoc (pos : nat)
| SliceLoc (start stop : nat)
| MaskLoc (mask : list bool).

(** [index.is_monotonic_increasing]: no entry is less than the one before. *)
Fixpoint is_monotonic_increasing (index : list Z) : bool :=
  match index with
  | a :: (b :: _) as rest => bool_decide (a ≤ b) && is_monotonic_increasing rest
  | _ => true
  end.

Fixpoint positions_from (i : nat) (index : list Z) (key : Z) : list nat :=
  match index with
  | [] => []
  | t :: rest =>
      if decide (t = key) then i :: positions_from (S i) rest key
      else positions_from (S i) rest key
  end.

Definition get_loc (index : list Z) (key : Z) : Result Loc :=
  match positions_from 0 index key with
  | [] => inl KeyError
  | [i] => inr (IntLoc i)
  | _ =>
      if is_monotonic_increasing index
      then inr (SliceLoc (length (filter (λ t, t < key) index))
                         (length (filter (λ t, t ≤ key) index)))
      else inr (MaskLoc ((λ t, bool_decide (t = key)) <$> index))
  end.

(** [max(0, current_pos - k)]: integer arithmetic on a position. A slice
    cannot be subtracted from ([TypeError]); a mask can, element by element,
    but the comparison [max] then makes has no truth value ([ValueError]). *)
Definition backtrack (current_pos : Loc) (k : Z) : Result Z :=
  match current_pos with
  | IntLoc i => inr (Z.max 0 (Z.of_nat i - k))
  | SliceLoc _ _ => inl TypeError
  | MaskLoc _ => inl ValueError
  end.

(** [seq[pos]] for a position that is not negative. *)
Definition at_pos {A} (l : list A) (pos : Z) : Result A :=
  match l !! Z.to_nat pos with
  | Some x => inr x
  | None => inl IndexError
  end.

Record AlertState := mkState {
  alert_active : bool;
  anomaly_streak : Z;
  normal_streak : Z;
  alert_start_timestamp : option Z;
  initial_anomaly_type : option AnomalyType
}.

(** The reports the monitor prints. *)
Inductive Event :=
| AlertStarted (detected_at estimated_start : Z) (initial_type : AnomalyType)
    (initial_value current_value current_mean lower upper : R)
| AlertResolved (detected_at estimated_resolve : Z)
    (original_start : option Z) (original_type : option AnomalyType)
    (current_value current_mean : R)
| AlertStartError (at_time : Z) (e : Exn)
| AlertResolveError (at_time : Z) (e : Exn)
| AlertStillActive (start : option Z) (initial_type : option AnomalyType).

Definition initial_state : AlertState := mkState false 0 0 None None.

(** The [try] block of the alert start: the backtracked start time and type,
    and the report. *)
Definition alert_start_logic (anomalies_df : list Verdict) (row_tuple : Verdict)
  : Result (Z * AnomalyType * Event) :=
  let current_timestamp := Index row_tuple in
  current_pos ← get_loc (Index <$> anomalies_df) current_timestamp;
  start_pos ← backtrack current_pos (CONSECUTIVE_MINUTES_THRESHOLD - 1);
  alert_start_timestamp ← at_pos (Index <$> anomalies_df) start_pos;
  first_anomaly_row_data ← at_pos anomalies_df start_pos;
  let initial_anomaly_type := anomaly_type first_anomaly_row_data in
  mret (alert_start_timestamp, initial_anomaly_type,
        AlertStarted current_timestamp alert_start_timestamp initial_anomaly_type
          (measurement_value (point first_anomaly_row_data))
          (measurement_value (point row_tuple)) (mean row_tuple)
          (lower_bound row_tuple) (upper_bound row_tuple)).

(** The [try] block of the alert resolution. *)
Definition alert_resolve_logic (anomalies_df : list Verdict) (s : AlertState)
    (row_tuple : Verdict) : Result Event :=
  let current_timestamp := Index row_tuple in
  current_pos ← get_loc (Index <$> anomalies_df) current_timestamp;
  resolve_pos ← backtrack current_pos (CONSECUTIVE_MINUTES_THRESHOLD - 1);
  resolve_time_estimate ← at_pos (Index <$> anomalies_df) resolve_pos;
  mret (AlertResolved current_timestamp resolve_time_estimate
          (alert_start_timestamp s) (initial_anomaly_type s)
          (measurement_value (point row_tuple)) (mean row_tuple)).

(** One iteration of the loop over [anomalies_df.itertuples()]. *)
Definition step (anomalies_df : list Verdict) (s : AlertState) (row_tuple : Verdict)
  : AlertState * list Event :=
  let current_timestamp := Index row_tuple in
  if is_anomaly row_tuple then
    let anomaly_streak := anomaly_streak s + 1 in
    let normal_streak := 0 in
    if bool_decide (anomaly_streak >= CONSECUTIVE_MINUTES_THRESHOLD)
       && negb (alert_active s) then
      match alert_start_logic anomalies_df row_tuple with
      | inr (start, ty, report) =>
          (mkState true anomaly_streak normal_streak (Some start) (Some ty),
           [report])
      | inl e =>
          (mkState false anomaly_streak normal_streak None None,
           [AlertStartError current_timestamp e])
      end
    else
      (mkState (alert_active s) anomaly_streak normal_streak
               (alert_start_timestamp s) (initial_anomaly_type s), [])
  else
    let normal_streak := normal_streak s + 1 in
    let anomaly_streak :=
      if bool_decide (anomaly_streak s > 0) then 0 else anomaly_streak s in
    if bool_decide (normal_streak >= CONSECUTIVE_MINUTES_THRESHOLD)
       && alert_active s then
      match alert_resolve_logic anomalies_df s row_tuple with
      | inr report =>
          (mkState false anomaly_streak normal_streak None None, [report])
      | inl e =>
          (mkState false anomaly_streak normal_streak None None,
           [AlertResolveError current_timestamp e])
      end
    else
      (mkState (alert_active s) anomaly_streak normal_streak
               (alert_start_timestamp s) (initial_anomaly_type s), []).

(** The loop, from state [s] over the rows still to come. *)
Fixpoint run (anomalies_df : list Verdict) (s : AlertState) (rows : list Verdict)
  : AlertState * list Event :=
  match rows with
  | [] => (s, [])
  | row_tuple :: rest =>
      let '(s1, reports) := step anomalies_df s row_tuple in
      let '(s2, later) := run anomalies_df s1 rest in
      (s2, reports ++ later)
  end.

Definition monitor_and_alert (anomalies_df : option (list Verdict)) : list Event :=
  match anomalies_df with
  | None => []
  | Some df =>
      let '(s, reports) := run df initial_state df in
      reports ++
      (if alert_active s
       then [AlertStillActive (alert_start_timestamp s) (initial_anomaly_type s)]
       else [])
  end.

(** ** The pipeline: [main]

    The two frames are what [load_and_prepare_data] answered for the baseline
    file and the measured file ([None] when the load failed); the prompts and
    the loads themselves are input and output and stay outside. *)
Definition main (baseline_df measured_df : option (list TimePoint))
  : list Event :=
  match baseline_df with
  | None => []
  | Some _ =>
      match calculate_baseline_stats baseline_df with
      | None => []
      | Some baseline_stats =>
          match measured_df with
          | None => []
          | Some _ =>
              let anomalies_df :=
                detect_anomalies measured_df (Some baseline_stats) in
              monitor_and_alert anomalies_df
          end
      end
  end.

(** * Definitions the properties are stated with *)

(** ** The classifier, point by point *)

(** The vectorised code acts on each row on its own: the columns and masks
    written as functions of one measured point. *)
Section PerPoint.

Variable stats : gmap Z (R * R).

Definition point_mean (p : TimePoint) : R :=
  default 0%R (fst <$> stats !! Calendar.minute_of_week (time p)).
Definition point_std (p : TimePoint) : R :=
  default 0%R (snd <$> stats !! Calendar.minute_of_week (time p)).
Definition point_upper (p : TimePoint) : R :=
  (point_mean p + STD_DEV_THRESHOLD * point_std p)%R.
Definition point_lower (p : TimePoint) : R :=
  Rmax 0 (point_mean p - STD_DEV_THRESHOLD * point_std p).
Definition point_deviation (p : TimePoint) : bool :=
  (bool_decide (measurement_value p < point_lower p)%R
   || bool_decide (measurement_value p > point_upper p)%R)
  && bool_decide (point_std p > STD_DEV_EPSILON)%R.
Definition point_zero (p : TimePoint) : bool :=
  bool_decide (measurement_value p = 0%R)
  && bool_decide (point_mean p >= BASELINE_ZERO_THRESHOLD)%R.
Definition point_type (p : TimePoint) : AnomalyType :=
  if point_zero p then Zero
  else if point_deviation p
          && bool_decide (measurement_value p < point_lower p)%R then Low
  else if point_deviation p
          && bool_decide (measurement_value p > point_upper p)%R then High
  else Normal.
Definition point_verdict (p : TimePoint) : Verdict :=
  mkVerdict p (Calendar.minute_of_week (time p)) (point_mean p) (point_std p)
    (point_upper p) (point_lower p) (point_deviation p || point_zero p)
    (point_type p).

End PerPoint.

(** ** The rules of the specification, read on one row of the returned frame *)

Definition deviation_rule (v : Verdict) : Prop :=
  ((measurement_value (point v) < lower_bound v
    ∨ measurement_value (point v) > upper_bound v)
   ∧ std v > STD_DEV_EPSILON)%R.

Definition zero_rule (v : Verdict) : Prop :=
  measurement_value (point v) = 0%R ∧ (mean v >= BASELINE_ZERO_THRESHOLD)%R.

#[global] Instance deviation_rule_dec v : Decision (deviation_rule v).
Proof. unfold deviation_rule. apply _. Defined.

#[global] Instance zero_rule_dec v : Decision (zero_rule v).
Proof. unfold zero_rule. apply _. Defined.

(** ** The baseline table, bucket by bucket *)

(** The values of the baseline points that fall in bucket [k], in frame
    order. *)
Definition bucket_values (k : Z) (df : list TimePoint) : list R :=
  measurement_value <$> filter (λ p, Calendar.minute_of_week (time p) = k) df.

(** Arithmetic mean and sample standard deviation ([n - 1] denominator), as
    the specification words them. *)
Definition arithmetic_mean (g : list R) : R :=
  (series_sum g / INR (length g))%R.

Definition sample_stddev (g : list R) : R :=
  sqrt (series_sum ((λ x, (x - arithmetic_mean g) * (x - arithmetic_mean g))%R
                      <$> g)
        / (INR (length g) - 1))%R.

(** ** The alert state machine, step by step *)

(** Timestamps in strictly ascending order. *)
Fixpoint strictly_ascending (ts : list Z) : bool :=
  match ts with
  | a :: (b :: _) as rest => bool_decide (a < b) && strictly_ascending rest
  | _ => true
  end.

(** What one iteration can do to the state and print. *)
Inductive StepShape (s : AlertState) (row : Verdict)
  : AlertState → list Event → Prop :=
| shape_quiet anomaly normal :
    StepShape s row
      (mkState (alert_active s) anomaly normal
               (alert_start_timestamp s) (initial_anomaly_type s)) []
| shape_started start ty initial_value :
    alert_active s = false → is_anomaly row = true →
    StepShape s row
      (mkState true (anomaly_streak s + 1) 0 (Some start) (Some ty))
      [AlertStarted (Index row) start ty initial_value
         (measurement_value (point row)) (mean row)
         (lower_bound row) (upper_bound row)]
| shape_start_error e :
    alert_active s = false → is_anomaly row = true →
    StepShape s row
      (mkState false (anomaly_streak s + 1) 0 None None)
      [AlertStartError (Index row) e]
| shape_resolved anomaly estimate :
    alert_active s = true → is_anomaly row = false →
    StepShape s row
      (mkState false anomaly (normal_streak s + 1) None None)
      [AlertResolved (Index row) estimate
         (alert_start_timestamp s) (initial_anomaly_type s)
         (measurement_value (point row)) (mean row)]
| shape_resolve_error anomaly e :
    alert_active s = true → is_anomaly row = false →
    StepShape s row
      (mkState false anomaly (normal_streak s + 1) None None)
      [AlertResolveError (Index row) e].

(** Alternation of the reports, read from the state [active] they start in:
    an AlertStarted needs Inactive and leads to Active, an AlertResolved needs
    Active and leads to Inactive; the other reports are passed over. *)
Fixpoint alternates (active : bool) (reports : list Event) : bool :=
  match reports with
  | [] => true
  | AlertStarted _ _ _ _ _ _ _ _ :: rest => negb active && alternates true rest
  | AlertResolved _ _ _ _ _ _ :: rest => active && alternates false rest
  | _ :: rest => alternates active rest
  end.

(** The same walk where the report of a failed resolution also ends the
    alert. *)
Fixpoint alternates_with_failures (active : bool) (reports : list Event) : bool :=
  match reports with
  | [] => true
  | AlertStarted _ _ _ _ _ _ _ _ :: rest =>
      negb active && alternates_with_failures true rest
  | AlertResolved _ _ _ _ _ _ :: rest
  | AlertResolveError _ _ :: rest =>
      active && alternates_with_failures false rest
  | _ :: rest => alternates_with_failures active rest
  end.

Definition is_started (e : Event) : bool :=
  match e with AlertStarted _ _ _ _ _ _ _ _ => true | _ => false end.
Definition is_resolved (e : Event) : bool :=
  match e with AlertResolved _ _ _ _ _ _ => true | _ => false end.
Definition is_error (e : Event) : bool :=
  match e with
  | AlertStartError _ _ | AlertResolveError _ _ => true
  | _ => false
  end.

(** The state after the first [n] rows of the frame. *)
Definition state_after (df : list Verdict) (n : nat) : AlertState :=
  (run df initial_state (take n df)).1.

(** Stored start information exists only while the alert is active. *)
Definition provenance_only_when_active (s : AlertState) : Prop :=
  alert_active s = false →
  alert_start_timestamp s = None ∧ initial_anomaly_type s = None.

(** The position the two [try] blocks go back to from position [i]. *)
Definition backtracked (i : nat) : nat :=
  Z.to_nat (Z.max 0 (Z.of_nat i - (CONSECUTIVE_MINUTES_THRESHOLD - 1))).

(** [c] is the length of the run of rows satisfying [f] that ends just before
    position [n]: the [c] rows before [n] satisfy [f], and the row before
    them, if there is one, does not. *)
Definition streak_of (f : Verdict → bool) (df : list Verdict) (n : nat) (c : Z)
  : Prop :=
  (0 ≤ c ≤ Z.of_nat n)
  ∧ (∀ j r, Z.of_nat n - c ≤ Z.of_nat j < Z.of_nat n →
            df !! j = Some r → f r = true)
  ∧ (∀ j r, Z.of_nat j = Z.of_nat n - c - 1 → df !! j = Some r → f r = false).

Definition is_normal (row : Verdict) : bool := negb (is_anomaly row).

(** What holds of the state before position [n] of a frame whose lookups do
    not fail. *)
Definition machine_invariant (df : list Verdict) (n : nat) (s : AlertState)
  : Prop :=
  streak_of is_anomaly df n (anomaly_streak s)
  ∧ streak_of is_normal df n (normal_streak s)
  ∧ (alert_active s = false → anomaly_streak s < CONSECUTIVE_MINUTES_THRESHOLD)
  ∧ (alert_active s = true → normal_streak s < CONSECUTIVE_MINUTES_THRESHOLD).

(** The reports printed while the first [n] rows are processed. *)
Definition reports_before (df : list Verdict) (n : nat) : list Event :=
  (run df initial_state (take n df)).2.

(** The start time and type of the alert the reports leave open: those of an
    AlertStarted that is the last report. *)
Definition open_alert (reports : list Event) : option (Z * AnomalyType) :=
  match last reports with
  | Some (AlertStarted _ start ty _ _ _ _ _) => Some (start, ty)
  | _ => None
  end.

(** The lookup both [try] blocks begin with. *)
Definition backtrack_lookup (df : list Verdict) (row : Verdict) : Result Z :=
  current_pos ← get_loc (Index <$> df) (Index row);
  backtrack current_pos (CONSECUTIVE_MINUTES_THRESHOLD - 1).

(** ** Sample frames *)

(** Sample frames: one row per minute [k] after the epoch, against a bucket of
    mean 250 and standard deviation 5; an anomalous row is a dropout to 0. *)
Definition sample_row (k : Z) (anomalous : bool) : Verdict :=
  let t := k * Calendar.ns_per_minute in
  mkVerdict (mkPoint t (if anomalous then 0 else 250)%R)
    (Calendar.minute_of_week t) 250 5 265 235
    anomalous (if anomalous then Zero else Normal).

Definition sample_rows (first count : Z) (anomalous : bool) : list Verdict :=
  (λ k, sample_row k anomalous) <$> seqZ first count.

(** Ten anomalous minutes, then ten normal ones. *)
Definition outage_frame : list Verdict :=
  sample_rows 0 10 true ++ sample_rows 10 10 false.

(** Ten anomalous minutes, ten normal rows the last of which shares its
    minute with a further normal row, then ten anomalous minutes. *)
Definition duplicate_frame : list Verdict :=
  sample_rows 0 10 true ++ sample_rows 10 10 false
  ++ [sample_row 19 false] ++ sample_rows 20 10 true.

(** Three rows out of order, minute 5 twice. *)
Definition unsorted_frame : list Verdict :=
  [sample_row 5 true; sample_row 3 true; sample_row 5 true].

(** Nine anomalous minutes, one normal minute, nine anomalous minutes. *)
Definition flapping_frame : list Verdict :=
  sample_rows 0 9 true ++ sample_rows 9 1 false ++ sample_rows 10 9 true.

(** Ten minutes of measurements of the same value, from the epoch on. *)
Definition ten_minutes (value : R) : list TimePoint :=
  (λ k, mkPoint (k * Calendar.ns_per_minute) value) <$> seqZ 0 10.

(** The ten minutes after those of [ten_minutes]. *)
Definition later_minutes (value : R) : list TimePoint :=
  (λ k, mkPoint (k * Calendar.ns_per_minute) value) <$> seqZ 10 10.

(** ** Reading the reports *)

(** The row a report was printed at. *)
Definition detected_at (e : Event) : option Z :=
  match e with
  | AlertStarted t _ _ _ _ _ _ _ | AlertResolved t _ _ _ _ _
  | AlertStartError t _ | AlertResolveError t _ => Some t
  | AlertStillActive _ _ => None
  end.

Definition is_still_active (e : Event) : bool :=
  match e with AlertStillActive _ _ => true | _ => false end.

(** Each AlertResolved names the start time and type of the AlertStarted
    before it; [current] is the alert that is open when the walk begins. *)
Fixpoint attributed (current : option (Z * AnomalyType)) (reports : list Event)
  : bool :=
  match reports with
  | [] => true
  | AlertStarted _ start ty _ _ _ _ _ :: rest => attributed (Some (start, ty)) rest
  | AlertResolved _ _ original_start original_type _ _ :: rest =>
      match current with
      | Some (start, ty) =>
          bool_decide (original_start = Some start ∧ original_type = Some ty)
          && attributed None rest
      | None => false
      end
  | AlertResolveError _ _ :: rest => attributed None rest
  | _ :: rest => attributed current rest
  end.

(** The alert a state holds open. *)
Definition state_open (s : AlertState) : option (Z * AnomalyType) :=
  if alert_active s then
    match alert_start_timestamp s, initial_anomaly_type s with
    | Some start, Some ty => Some (start, ty)
    | _, _ => None
    end
  else None.

Definition active_has_provenance (s : AlertState) : Prop :=
  alert_active s = true →
  is_Some (alert_start_timestamp s) ∧ is_Some (initial_anomaly_type s).

(** The rows at positions [i], ..., [i + CONSECUTIVE_MINUTES_THRESHOLD - 1]
    exist and are all anomalous. *)
Definition anomalous_window (df : list Verdict) (i : nat) : Prop :=
  ∀ j, (i ≤ j < i + Z.to_nat CONSECUTIVE_MINUTES_THRESHOLD)%nat →
       ∃ r, df !! j = Some r ∧ is_anomaly r = true.

(** Position [p] of the index holds time [t]. *)
Definition time_at (df : list Verdict) (p : nat) (t : Z) : Prop :=
  (Index <$> df) !! p = Some t.

(** A report whose estimate is the time found
    [CONSECUTIVE_MINUTES_THRESHOLD - 1] rows before the row it was printed
    at. *)
Definition estimate_nine_back (df : list Verdict) (e : Event) : Prop :=
  match e with
  | AlertStarted t estimate _ _ _ _ _ _ | AlertResolved t estimate _ _ _ _ =>
      ∃ i, time_at df i estimate
           ∧ time_at df (i + Z.to_nat (CONSECUTIVE_MINUTES_THRESHOLD - 1)) t
  | _ => True
  end.

(** * Properties *)

(** ** Minute-of-week buckets *)

Lemma minute_of_week_range (t : Z) :
  0 ≤ Calendar.minute_of_week t < 10080.
Proof.
  unfold Calendar.minute_of_week, Calendar.dayofweek, Calendar.hour,
    Calendar.minute, Calendar.ns_per_day, Calendar.ns_per_hour,
    Calendar.ns_per_minute.
  pose proof (Z.mod_pos_bound (t / (24 * (60 * (60 * 1000000000))) + 3) 7).
  pose proof (Z.mod_pos_bound t (24 * (60 * (60 * 1000000000)))).
  pose proof (Z.mod_pos_bound t (60 * (60 * 1000000000))).
  assert (0 ≤ t `mod` (24 * (60 * (60 * 1000000000)))
              / (60 * (60 * 1000000000)) < 24)
    by (split; [ apply Z.div_pos | apply Z.div_lt_upper_bound ]; lia).
  assert (0 ≤ t `mod` (60 * (60 * 1000000000)) / (60 * 1000000000) < 60)
    by (split; [ apply Z.div_pos | apply Z.div_lt_upper_bound ]; lia).
  lia.
Qed.

(** ** BaselineAggregator *)

Lemma groupby_lookup (df : list TimePoint) (k : Z) :
  groupby ((λ p, Calendar.minute_of_week (time p)) <$> df)
          (measurement_value <$> df) !! k
  = if decide (bucket_values k df = []) then None
    else Some (bucket_values k df).
Proof.
  unfold groupby, bucket_values.
  induction df as [|p df IH]; [ reflexivity | ].
  cbn [fmap list_fmap zip zip_with foldr fst snd].
  change (foldr _ ∅ _)
    with (groupby ((λ p, Calendar.minute_of_week (time p)) <$> df)
                  (measurement_value <$> df)) in *.
  destruct (decide (Calendar.minute_of_week (time p) = k)) as [Hk|Hk].
  - rewrite filter_cons_True by exact Hk. subst k.
    rewrite lookup_insert_eq, IH. cbn [fmap list_fmap].
    destruct (decide (_ <$> filter _ df = [])) as [Hg|Hg];
      [ rewrite Hg | ]; cbn [default];
      rewrite decide_False by discriminate; reflexivity.
  - rewrite filter_cons_False by exact Hk.
    rewrite lookup_insert_ne by exact Hk. exact IH.
Qed.

Lemma agg_std_sample (g : list R) :
  (2 ≤ length g)%nat → agg_std g = Some (sample_stddev g).
Proof.
  intros Hn. unfold agg_std, sample_stddev, agg_mean, arithmetic_mean.
  rewrite decide_False by lia. do 3 f_equal.
  rewrite minus_INR by lia. reflexivity.
Qed.

Lemma agg_std_single (g : list R) : length g = 1%nat → agg_std g = None.
Proof. intros Hn. unfold agg_std. rewrite decide_True by lia. reflexivity. Qed.

(** A bucket without baseline points has no row in the table. *)
Lemma calculate_baseline_stats_absent (baseline_df : list TimePoint) (k : Z) :
  bucket_values k baseline_df = [] →
  calculate_baseline_stats (Some baseline_df) ≫= (λ stats, stats !! k) = None.
Proof.
  intros Hg. unfold calculate_baseline_stats. cbn [mbind option_bind].
  rewrite !lookup_fmap, groupby_lookup, decide_True by exact Hg. reflexivity.
Qed.

(** C5. For every bucket that has at least one baseline point, the table holds
    the arithmetic mean of the bucket's values, and as standard deviation the
    sample standard deviation ([n - 1] denominator) when the bucket has two
    values or more and 0 when it has exactly one. *)
Theorem C5_bucket_mean_and_stddev (baseline_df : list TimePoint) (k : Z) :
  bucket_values k baseline_df ≠ [] →
  ∃ stats m s,
    calculate_baseline_stats (Some baseline_df) = Some stats
    ∧ stats !! k = Some (m, s)
    ∧ m = arithmetic_mean (bucket_values k baseline_df)
    ∧ ((2 ≤ length (bucket_values k baseline_df))%nat →
       s = sample_stddev (bucket_values k baseline_df))
    ∧ (length (bucket_values k baseline_df) = 1%nat → s = 0%R).
Proof.
  intros Hg. unfold calculate_baseline_stats.
  eexists _, _, _. split; [ reflexivity | ].
  rewrite !lookup_fmap, groupby_lookup, decide_False by exact Hg.
  cbn [fmap option_fmap option_map fst snd].
  split; [ reflexivity | ]. split; [ reflexivity | ]. split.
  - intros Hn. rewrite agg_std_sample by exact Hn. reflexivity.
  - intros Hn. rewrite agg_std_single by exact Hn. reflexivity.
Qed.

Lemma C5_bucket_mean_and_stddev_witness :
  ∃ stats m s,
    calculate_baseline_stats (Some [mkPoint 0 5%R]) = Some stats
    ∧ stats !! 4320 = Some (m, s)
    ∧ m = arithmetic_mean (bucket_values 4320 [mkPoint 0 5%R])
    ∧ ((2 ≤ length (bucket_values 4320 [mkPoint 0 5%R]))%nat →
       s = sample_stddev (bucket_values 4320 [mkPoint 0 5%R]))
    ∧ (length (bucket_values 4320 [mkPoint 0 5%R]) = 1%nat → s = 0%R).
Proof.
  apply (C5_bucket_mean_and_stddev [mkPoint 0 5%R] 4320).
  unfold bucket_values. rewrite filter_cons_True by reflexivity. discriminate.
Defined.

(** ** AnomalyClassifier *)

Lemma loc_assign_fmap {A B} (m : A → bool) (c : B) (f : A → B) (l : list A) :
  loc_assign (m <$> l) c (f <$> l) = (λ x, if m x then c else f x) <$> l.
Proof.
  unfold loc_assign. rewrite zip_with_fmap_l, zip_with_fmap_r, zip_with_diag.
  reflexivity.
Qed.

Lemma zip_with_fmap_same {A B C D} (h : B → C → D) (f : A → B) (g : A → C)
    (l : list A) :
  zip_with h (f <$> l) (g <$> l) = (λ x, h (f x) (g x)) <$> l.
Proof.
  rewrite zip_with_fmap_l, zip_with_fmap_r, zip_with_diag. reflexivity.
Qed.

Lemma detect_anomalies_body_pointwise (stats : gmap Z (R * R))
    (df : list TimePoint) :
  detect_anomalies_body df stats =
  mkClassified (point_verdict stats <$> df) (point_deviation stats <$> df)
               (point_zero stats <$> df).
Proof.
  unfold detect_anomalies_body, merge_left, fillna, series_add, series_sub,
    series_scale, series_maximum, series_lt, series_gt, series_gt_const,
    series_ge_const, series_eq_const, mask_or, mask_and, with_column.
  cbv zeta.
  repeat first [ rewrite <- !list_fmap_compose
               | rewrite !loc_assign_fmap
               | rewrite !zip_with_fmap_same ].
  f_equal.
  - apply list_fmap_ext. intros _ p _. unfold point_verdict. cbn.
    f_equal.
    unfold point_type, point_zero, point_deviation, point_lower, point_upper,
      point_mean, point_std. cbn.
    repeat match goal with
           | |- context [@bool_decide ?P ?d] =>
               lazymatch P with
               | (_ = Normal) => fail
               | _ => destruct (@bool_decide P d)
               end
           end; reflexivity.
Qed.

Lemma point_deviation_rule stats p :
  point_deviation stats p = true ↔ deviation_rule (point_verdict stats p).
Proof.
  unfold point_deviation, deviation_rule. cbn.
  rewrite andb_true_iff, orb_true_iff, !bool_decide_eq_true. reflexivity.
Qed.

Lemma point_zero_rule stats p :
  point_zero stats p = true ↔ zero_rule (point_verdict stats p).
Proof.
  unfold point_zero, zero_rule. cbn.
  rewrite andb_true_iff, !bool_decide_eq_true. reflexivity.
Qed.

Lemma Forall2_fmap_diag {A B} (P : A → B → Prop) (f : A → B) (l : list A) :
  (∀ x, P x (f x)) → Forall2 P l (f <$> l).
Proof.
  intros HP. apply Forall2_fmap_r, Forall_Forall2_diag, Forall_forall.
  intros x _. apply HP.
Qed.

Lemma Forall2_fmap_fmap {A B C} (P : B → C → Prop) (f : A → B) (g : A → C)
    (l : list A) :
  (∀ x, P (f x) (g x)) → Forall2 P (f <$> l) (g <$> l).
Proof.
  intros HP. apply Forall2_fmap, Forall_Forall2_diag, Forall_forall.
  intros x _. apply HP.
Qed.

Ltac decide_comparisons :=
  unfold point_type, point_zero, point_deviation, point_upper, point_lower,
    point_mean, point_std, STD_DEV_THRESHOLD, STD_DEV_EPSILON,
    BASELINE_ZERO_THRESHOLD;
  rewrite ?lookup_singleton_eq; cbn [fmap option_fmap option_map default fst snd
                                     measurement_value time];
  unfold Rmax; repeat destruct (Rle_dec _ _);
  repeat case_bool_decide; cbn [andb orb]; try reflexivity; exfalso;
  cbv [Datatypes.id] in *; lra.

(** Scenario A of the specification: a bucket of mean 100 and standard
    deviation 5, measured value 200. *)
Example scenario_A_high :
  point_type {[Calendar.minute_of_week 0 := (100, 5)%R]} (mkPoint 0 200) = High.
Proof. decide_comparisons. Qed.

(** Scenario B: a bucket of mean 300, measured value 0. The value is also
    under the lower bound, and the type is still Zero. *)
Example scenario_B_zero :
  point_type {[Calendar.minute_of_week 0 := (300, 5)%R]} (mkPoint 0 0) = Zero
  ∧ point_deviation {[Calendar.minute_of_week 0 := (300, 5)%R]} (mkPoint 0 0)
    = true.
Proof. split; decide_comparisons. Qed.

(** A dropout to 0 against a quiet bucket (mean 100, under the zero threshold)
    is a Low deviation. *)
Example quiet_bucket_low :
  point_type {[Calendar.minute_of_week 0 := (100, 5)%R]} (mkPoint 0 0) = Low.
Proof. decide_comparisons. Qed.

(** C3. Every measured point yields one row, in order, whose bounds are
    [mean + STD_DEV_THRESHOLD * std] and [max(0, mean - STD_DEV_THRESHOLD * std)]
    for the statistics of its bucket, and whose [is_anomaly] flag is set exactly
    when the value lies outside the bounds with [std > STD_DEV_EPSILON], or the
    value is zero with [mean >= BASELINE_ZERO_THRESHOLD]; the two masks of the
    code are these two rules. *)
Theorem C3_is_anomaly_rule (df : list TimePoint) (stats : gmap Z (R * R)) :
  let c := detect_anomalies_body df stats in
  detect_anomalies (Some df) (Some stats) = Some (merged_df c)
  ∧ Forall2 (λ p v,
       point v = p
       ∧ mean v = default 0%R (fst <$> stats !! Calendar.minute_of_week (time p))
       ∧ std v = default 0%R (snd <$> stats !! Calendar.minute_of_week (time p))
       ∧ upper_bound v = (mean v + STD_DEV_THRESHOLD * std v)%R
       ∧ lower_bound v = Rmax 0 (mean v - STD_DEV_THRESHOLD * std v)
       ∧ (is_anomaly v = true ↔ deviation_rule v ∨ zero_rule v))
     df (merged_df c)
  ∧ Forall2 (λ v (flag : bool), flag = true ↔ deviation_rule v)
      (merged_df c) (deviation_anomaly c)
  ∧ Forall2 (λ v (flag : bool), flag = true ↔ zero_rule v)
      (merged_df c) (zero_anomaly c).
Proof.
  intros c. subst c. unfold detect_anomalies.
  rewrite detect_anomalies_body_pointwise.
  cbn [merged_df deviation_anomaly zero_anomaly].
  split; [ reflexivity | split; [ | split ] ].
  - apply Forall2_fmap_diag. intros p. cbn.
    repeat split; try reflexivity.
    + rewrite orb_true_iff, point_deviation_rule, point_zero_rule. tauto.
    + rewrite orb_true_iff, point_deviation_rule, point_zero_rule. tauto.
  - apply Forall2_fmap_fmap. intros p. symmetry. rewrite point_deviation_rule.
    reflexivity.
  - apply Forall2_fmap_fmap. intros p. symmetry. rewrite point_zero_rule.
    reflexivity.
Qed.

(** C4. Every measured point yields one row, in order, that carries the
    point, the statistics of its bucket (0 and 0 for a bucket without a row in
    the table) and the bounds computed from them, and whose type follows the
    priority Zero > Low > High > Normal: Zero whenever the zero rule holds,
    whatever the deviation rule says; otherwise Low when the deviation rule
    holds with the value under the lower bound; otherwise High when it holds
    with the value over the upper bound; otherwise Normal. *)
Theorem C4_anomaly_type_priority (df : list TimePoint) (stats : gmap Z (R * R)) :
  ∃ out, detect_anomalies (Some df) (Some stats) = Some out
  ∧ Forall2 (λ p v,
      point v = p
      ∧ mean v = default 0%R (fst <$> stats !! Calendar.minute_of_week (time p))
      ∧ std v = default 0%R (snd <$> stats !! Calendar.minute_of_week (time p))
      ∧ upper_bound v = (mean v + STD_DEV_THRESHOLD * std v)%R
      ∧ lower_bound v = Rmax 0 (mean v - STD_DEV_THRESHOLD * std v)
      ∧ anomaly_type v =
          if decide (zero_rule v) then Zero
          else if decide (deviation_rule v
                          ∧ (measurement_value (point v) < lower_bound v)%R)
               then Low
          else if decide (deviation_rule v
                          ∧ (measurement_value (point v) > upper_bound v)%R)
               then High
          else Normal) df out.
Proof.
  eexists. split; [ reflexivity | ].
  rewrite detect_anomalies_body_pointwise. cbn [merged_df].
  apply Forall2_fmap_diag. intros p.
  do 5 (split; [ reflexivity | ]). cbn.
  unfold point_type.
  pose proof (point_zero_rule stats p) as Hz.
  pose proof (point_deviation_rule stats p) as Hd.
  destruct (point_zero stats p).
  { rewrite decide_True by (apply Hz; reflexivity). reflexivity. }
  rewrite decide_False by (intros H; apply Hz in H; discriminate).
  destruct (point_deviation stats p); cbn.
  - assert (deviation_rule (point_verdict stats p)) as Hdev
      by (apply Hd; reflexivity).
    case_bool_decide.
    + rewrite decide_True by (split; assumption). reflexivity.
    + rewrite decide_False by (intros [_ ?]; contradiction).
      case_bool_decide.
      * rewrite decide_True by (split; assumption). reflexivity.
      * rewrite decide_False by (intros [_ ?]; contradiction). reflexivity.
  - assert (¬ deviation_rule (point_verdict stats p)) as Hdev
      by (intros H; apply Hd in H; discriminate).
    rewrite !decide_False by (intros [? _]; contradiction). reflexivity.
Qed.

(** A dropout to 0 against a bucket of mean 300 and standard deviation 5 is
    under the lower bound 285 as well, and the row returned for it has type
    Zero. *)
Example zero_wins_over_low :
  detect_anomalies (Some [mkPoint 0 0])
    (Some {[Calendar.minute_of_week 0 := (300, 5)%R]})
    ≫= (λ out, anomaly_type <$> out !! 0%nat) = Some Zero.
Proof.
  unfold detect_anomalies. rewrite detect_anomalies_body_pointwise.
  cbn. do 2 f_equal. decide_comparisons.
Qed.

(** C6. A measured point whose minute-of-week bucket is not in the baseline
    table gets mean 0 and std 0, hence both bounds 0; whatever its value, the
    deviation mask is off for it, because std 0 does not exceed
    [STD_DEV_EPSILON] (and the row is not flagged at all). *)
Theorem C6_absent_bucket_default (df : list TimePoint) (stats : gmap Z (R * R))
    (i : nat) (p : TimePoint) :
  df !! i = Some p →
  stats !! Calendar.minute_of_week (time p) = None →
  ∃ v, detect_anomalies (Some df) (Some stats) ≫= (λ out, out !! i) = Some v
       ∧ point v = p
       ∧ mean v = 0%R ∧ std v = 0%R
       ∧ lower_bound v = 0%R ∧ upper_bound v = 0%R
       ∧ deviation_anomaly (detect_anomalies_body df stats) !! i = Some false
       ∧ ¬ deviation_rule v
       ∧ is_anomaly v = false.
Proof.
  intros Hp Hk. exists (point_verdict stats p).
  unfold detect_anomalies. rewrite detect_anomalies_body_pointwise. cbn.
  rewrite !list_lookup_fmap, Hp. cbn.
  assert (point_mean stats p = 0%R) as Hm by (unfold point_mean; rewrite Hk; reflexivity).
  assert (point_std stats p = 0%R) as Hs by (unfold point_std; rewrite Hk; reflexivity).
  assert (point_lower stats p = 0%R) as Hl.
  { unfold point_lower, STD_DEV_THRESHOLD. rewrite Hm, Hs.
    replace (0 - 3.0 * 0)%R with 0%R by lra. apply Rmax_left. lra. }
  assert (point_upper stats p = 0%R) as Hu.
  { unfold point_upper, STD_DEV_THRESHOLD. rewrite Hm, Hs. lra. }
  assert (point_deviation stats p = false) as Hd.
  { unfold point_deviation. rewrite Hs.
    rewrite (bool_decide_eq_false_2 (0 > STD_DEV_EPSILON)%R)
      by (unfold STD_DEV_EPSILON; lra).
    apply andb_false_r. }
  assert (point_zero stats p = false) as Hz.
  { unfold point_zero. rewrite Hm.
    rewrite (bool_decide_eq_false_2 (0 >= BASELINE_ZERO_THRESHOLD)%R)
      by (unfold BASELINE_ZERO_THRESHOLD; lra).
    apply andb_false_r. }
  repeat split; try assumption; try reflexivity.
  - rewrite Hd. reflexivity.
  - intros H. apply point_deviation_rule in H. congruence.
  - rewrite Hd, Hz. reflexivity.
Qed.

Lemma C6_absent_bucket_default_witness :
  ∃ v, detect_anomalies (Some [mkPoint 0 5%R]) (Some ∅) ≫= (λ out, out !! 0%nat)
       = Some v
       ∧ point v = mkPoint 0 5%R
       ∧ mean v = 0%R ∧ std v = 0%R
       ∧ lower_bound v = 0%R ∧ upper_bound v = 0%R
       ∧ deviation_anomaly (detect_anomalies_body [mkPoint 0 5%R] ∅) !! 0%nat
         = Some false
       ∧ ¬ deviation_rule v
       ∧ is_anomaly v = false.
Proof.
  apply (C6_absent_bucket_default [mkPoint 0 5%R] ∅ 0 (mkPoint 0 5%R));
    reflexivity.
Defined.

(** ** Absent and empty inputs *)

(** C1 (as stated, refuted). Empty inputs are not failures: the empty baseline
    frame yields the empty table, the empty measured frame the empty frame,
    and measured points against the empty table are classified. *)
Lemma C1_empty_input_counterexample :
  calculate_baseline_stats (Some []) ≠ None
  ∧ detect_anomalies (Some []) (Some ∅) ≠ None
  ∧ detect_anomalies (Some [mkPoint 0 5%R]) (Some ∅) ≠ None.
Proof. repeat split; discriminate. Qed.

Lemma timed_rows_zip (rows : list TimePoint) :
  zip_with mkPoint (time <$> rows) (measurement_value <$> rows) = rows.
Proof.
  induction rows as [|[t x] rows IH]; [ reflexivity | ].
  cbn. rewrite IH. reflexivity.
Qed.

Lemma calculate_baseline_stats_any_timed (rows : list TimePoint) :
  calculate_baseline_stats_any (Some (Timed rows))
  = (calculate_baseline_stats (Some rows), [BaselineCalculated]).
Proof.
  unfold calculate_baseline_stats_any, calculate_baseline_stats_try,
    calculate_baseline_stats.
  cbn [datetime_index measurement_column mbind Result_bind mret Result_ret].
  rewrite <- list_fmap_compose. reflexivity.
Qed.

Lemma detect_anomalies_any_timed (rows : list TimePoint) (stats : gmap Z (R * R)) :
  detect_anomalies_any (Some (Timed rows)) (Some (Table stats))
  = (detect_anomalies (Some rows) (Some stats), [DetectionComplete]).
Proof.
  unfold detect_anomalies_any, detect_anomalies_try, detect_anomalies.
  cbn [datetime_index measurement_column statistics_columns mbind Result_bind
       mret Result_ret].
  rewrite timed_rows_zip. reflexivity.
Qed.

(** C1 (amended). Each stage answers [None] in two cases only: without a
    word when an input is absent, and after printing the error when an
    operation of its [try] block raises, which happens for a frame without a
    DatetimeIndex (such as [pd.DataFrame()]), a frame without the column
    [measurement_value], and a statistics frame without the columns [mean]
    and [std]. Emptiness is not one of the cases: for every frame with a
    DatetimeIndex and the column, the empty one included, the baseline stage
    answers a table (the empty table for the empty frame), and against every
    table, the empty one included, the detection stage answers one row per
    measured point (no row for the empty frame). *)
Theorem C1_failure_absent_or_raising :
  calculate_baseline_stats_any None = (None, [])
  ∧ (∀ frame,
       (∃ e, calculate_baseline_stats_any (Some frame) = (None, [BaselineError e]))
       ↔ ¬ ∃ rows, frame = Timed rows)
  ∧ (∀ rows,
       ∃ stats,
         calculate_baseline_stats_any (Some (Timed rows))
         = (Some stats, [BaselineCalculated])
         ∧ calculate_baseline_stats (Some rows) = Some stats
         ∧ (rows = [] → stats = ∅))
  ∧ (∀ measured_df baseline_stats,
       detect_anomalies_any measured_df baseline_stats = (None, [])
       ↔ measured_df = None ∨ baseline_stats = None)
  ∧ (∀ frame stats_frame,
       (∃ e, detect_anomalies_any (Some frame) (Some stats_frame)
             = (None, [DetectionError e]))
       ↔ ¬ ∃ rows stats, frame = Timed rows ∧ stats_frame = Table stats)
  ∧ (∀ rows stats,
       ∃ out,
         detect_anomalies_any (Some (Timed rows)) (Some (Table stats))
         = (Some out, [DetectionComplete])
         ∧ detect_anomalies (Some rows) (Some stats) = Some out
         ∧ length out = length rows).
Proof.
  split_and!.
  - reflexivity.
  - intros frame. split.
    + intros [e He] [rows ->].
      rewrite calculate_baseline_stats_any_timed in He. discriminate.
    + intros Hother. destruct frame as [rows | index | [values|]].
      * exfalso. eauto.
      * exists KeyError. reflexivity.
      * exists AttributeError. reflexivity.
      * exists AttributeError. reflexivity.
  - intros rows. eexists. rewrite calculate_baseline_stats_any_timed.
    split_and!; [ reflexivity | reflexivity | ].
    intros ->. reflexivity.
  - intros measured_df baseline_stats. split.
    + destruct measured_df as [frame|], baseline_stats as [stats_frame|];
        auto.
      unfold detect_anomalies_any.
      destruct (detect_anomalies_try frame stats_frame); discriminate.
    + intros [-> | ->]; [ reflexivity | ].
      destruct measured_df; reflexivity.
  - intros frame stats_frame. split.
    + intros [e He] (rows & stats & -> & ->).
      rewrite detect_anomalies_any_timed in He. discriminate.
    + intros Hother.
      destruct frame as [rows | index | [values|]],
               stats_frame as [stats|];
        try (exfalso; eauto; fail);
        first [ exists KeyError; reflexivity
              | exists AttributeError; reflexivity ].
  - intros rows stats. eexists. rewrite detect_anomalies_any_timed.
    split_and!; [ reflexivity | reflexivity | ].
    rewrite detect_anomalies_body_pointwise. cbn [merged_df].
    apply length_fmap.
Qed.

(** The frame [pd.DataFrame()] is empty and present, and both stages fail on
    it; the empty frame of a file that has only its header line is not a
    failure for either. *)
Example empty_frames :
  calculate_baseline_stats_any (Some (Untimed None))
    = (None, [BaselineError AttributeError])
  ∧ detect_anomalies_any (Some (Untimed None)) (Some (Table ∅))
    = (None, [DetectionError AttributeError])
  ∧ calculate_baseline_stats_any (Some (Timed []))
    = (Some ∅, [BaselineCalculated])
  ∧ detect_anomalies_any (Some (Timed [])) (Some (Table ∅))
    = (Some [], [DetectionComplete]).
Proof. repeat split; reflexivity. Qed.

(** ** AlertStateMachine: one iteration *)

Ltac unfold_try_block :=
  unfold alert_start_logic, alert_resolve_logic, mbind, Result_bind, mret,
    Result_ret.

Lemma alert_start_logic_inr df row start ty report :
  alert_start_logic df row = inr (start, ty, report) →
  ∃ initial_value,
    report = AlertStarted (Index row) start ty initial_value
               (measurement_value (point row)) (mean row)
               (lower_bound row) (upper_bound row).
Proof.
  unfold_try_block.
  destruct (get_loc _ _) as [|loc]; [ discriminate | ].
  destruct (backtrack _ _) as [|pos]; [ discriminate | ].
  destruct (at_pos (Index <$> df) pos) as [|t]; [ discriminate | ].
  destruct (at_pos df pos) as [|first]; [ discriminate | ].
  intros [= <- <- <-]. eexists. reflexivity.
Qed.

Lemma alert_resolve_logic_inr df s row report :
  alert_resolve_logic df s row = inr report →
  ∃ estimate,
    report = AlertResolved (Index row) estimate
               (alert_start_timestamp s) (initial_anomaly_type s)
               (measurement_value (point row)) (mean row).
Proof.
  unfold_try_block.
  destruct (get_loc _ _) as [|loc]; [ discriminate | ].
  destruct (backtrack _ _) as [|pos]; [ discriminate | ].
  destruct (at_pos (Index <$> df) pos) as [|t]; [ discriminate | ].
  intros [= <-]. eexists. reflexivity.
Qed.

Lemma step_shape df s row :
  StepShape s row (step df s row).1 (step df s row).2.
Proof.
  unfold step.
  destruct (is_anomaly row) eqn:Hrow.
  - destruct (bool_decide _); cbn [andb]; [ | apply shape_quiet ].
    destruct (alert_active s) eqn:Hact; cbn [negb].
    + rewrite <- Hact. apply shape_quiet.
    + destruct (alert_start_logic df row) as [e|[[start ty] report]] eqn:Hlogic.
      * cbn. apply shape_start_error; assumption.
      * apply alert_start_logic_inr in Hlogic as [iv ->]. cbn.
        apply shape_started; assumption.
  - destruct (bool_decide (normal_streak s + 1 >= _)); cbn [andb];
      [ | apply shape_quiet ].
    destruct (alert_active s) eqn:Hact.
    + destruct (alert_resolve_logic df s row) as [e|report] eqn:Hlogic.
      * cbn. apply shape_resolve_error; assumption.
      * apply alert_resolve_logic_inr in Hlogic as [est ->]. cbn.
        apply shape_resolved; assumption.
    + rewrite <- Hact. apply shape_quiet.
Qed.

Lemma run_cons df s row rest :
  run df s (row :: rest)
  = ((run df (step df s row).1 rest).1,
     (step df s row).2 ++ (run df (step df s row).1 rest).2).
Proof.
  cbn [run]. destruct (step df s row) as [s1 reports]. cbn [fst snd].
  destruct (run df s1 rest) as [s2 later]. reflexivity.
Qed.

Lemma run_app df s rows1 rows2 :
  run df s (rows1 ++ rows2)
  = ((run df (run df s rows1).1 rows2).1,
     (run df s rows1).2 ++ (run df (run df s rows1).1 rows2).2).
Proof.
  revert s. induction rows1 as [|row rows1 IH]; intros s.
  - cbn. destruct (run df s rows2). reflexivity.
  - rewrite <- app_comm_cons, !run_cons, IH. cbn [fst snd].
    rewrite app_assoc. reflexivity.
Qed.

Lemma state_after_S df n row :
  df !! n = Some row →
  state_after df (S n) = (step df (state_after df n) row).1.
Proof.
  intros Hrow. unfold state_after.
  rewrite (take_S_r _ _ _ Hrow), run_app. cbn [fst].
  rewrite run_cons. reflexivity.
Qed.

Lemma step_provenance df s row :
  provenance_only_when_active s →
  provenance_only_when_active (step df s row).1.
Proof.
  intros Hs. unfold provenance_only_when_active in *.
  destruct (step_shape df s row); cbn; auto; discriminate.
Qed.

Lemma run_provenance df rows s :
  provenance_only_when_active s →
  provenance_only_when_active (run df s rows).1.
Proof.
  revert s. induction rows as [|row rows IH]; intros s Hs; [ exact Hs | ].
  rewrite run_cons. cbn [fst]. apply IH, step_provenance, Hs.
Qed.

Lemma run_alternates_with_failures df rows s tail :
  alternates_with_failures (alert_active (run df s rows).1) tail = true →
  alternates_with_failures (alert_active s) ((run df s rows).2 ++ tail) = true.
Proof.
  revert s. induction rows as [|row rows IH]; intros s Htail; [ exact Htail | ].
  rewrite run_cons in *. cbn [fst snd] in *. rewrite <- app_assoc.
  specialize (IH _ Htail).
  destruct (step_shape df s row) as [ | ? ? ? Ha _ | ? Ha _ | ? ? Ha _ | ? ? Ha _ ];
    cbn in *; try rewrite Ha; cbn; exact IH.
Qed.

Lemma open_alert_while_active df rows :
  let s := (run df initial_state rows).1 in
  alert_active s = true →
  ∃ start ty,
    alert_start_timestamp s = Some start
    ∧ initial_anomaly_type s = Some ty
    ∧ open_alert (run df initial_state rows).2 = Some (start, ty).
Proof.
  induction rows as [|row rows IH] using rev_ind; [ discriminate | ].
  rewrite run_app, run_cons. cbn [run fst snd] in *.
  rewrite app_nil_r.
  destruct (step_shape df (run df initial_state rows).1 row); cbn;
    try discriminate.
  - rewrite app_nil_r. exact IH.
  - intros _. eexists _, _. unfold open_alert. rewrite last_snoc.
    repeat split; reflexivity.
Qed.

(** ** AlertStateMachine: lookups in a strictly ascending index *)

Lemma strictly_ascending_tail a ts :
  strictly_ascending (a :: ts) = true → strictly_ascending ts = true.
Proof.
  destruct ts as [|b ts]; [ reflexivity | ].
  cbn [strictly_ascending]. intros [_ H]%andb_true_iff. exact H.
Qed.

Lemma strictly_ascending_head a ts j t :
  strictly_ascending (a :: ts) = true → ts !! j = Some t → a < t.
Proof.
  revert a j. induction ts as [|b ts IH]; intros a j Hasc Hj; [ discriminate | ].
  pose proof Hasc as Hasc'. cbn [strictly_ascending] in Hasc'.
  apply andb_true_iff in Hasc' as [Hab Hrest].
  apply bool_decide_eq_true in Hab.
  destruct j as [|j]; cbn in Hj.
  - injection Hj as <-. exact Hab.
  - specialize (IH b j Hrest Hj). lia.
Qed.

Lemma positions_from_absent n ts key :
  (∀ j t, ts !! j = Some t → t ≠ key) → positions_from n ts key = [].
Proof.
  revert n. induction ts as [|a ts IH]; intros n Habs; [ reflexivity | ].
  cbn [positions_from].
  rewrite decide_False by (apply (Habs 0%nat); reflexivity).
  apply IH. intros j t Hj. apply (Habs (S j)). exact Hj.
Qed.

Lemma positions_from_unique n ts i key :
  strictly_ascending ts = true → ts !! i = Some key →
  positions_from n ts key = [(n + i)%nat].
Proof.
  revert n i. induction ts as [|a ts IH]; intros n i Hasc Hi; [ discriminate | ].
  cbn [positions_from]. destruct i as [|i]; cbn in Hi.
  - injection Hi as ->. rewrite decide_True by reflexivity.
    rewrite positions_from_absent; [ f_equal; lia | ].
    intros j t Hj Heq. subst t.
    pose proof (strictly_ascending_head _ _ _ _ Hasc Hj). lia.
  - pose proof (strictly_ascending_head _ _ _ _ Hasc Hi).
    rewrite decide_False by lia.
    rewrite (IH (S n) i (strictly_ascending_tail _ _ Hasc) Hi).
    f_equal. lia.
Qed.

Lemma get_loc_unique ts i key :
  strictly_ascending ts = true → ts !! i = Some key →
  get_loc ts key = inr (IntLoc i).
Proof.
  intros Hasc Hi. unfold get_loc.
  rewrite (positions_from_unique 0 ts i key Hasc Hi). reflexivity.
Qed.

Lemma backtracked_lookup (df : list Verdict) i row :
  df !! i = Some row → ∃ first, df !! backtracked i = Some first.
Proof.
  intros Hrow. apply lookup_lt_is_Some.
  apply lookup_lt_Some in Hrow.
  unfold backtracked, CONSECUTIVE_MINUTES_THRESHOLD. lia.
Qed.

Lemma alert_start_logic_ascending df i row first :
  strictly_ascending (Index <$> df) = true →
  df !! i = Some row → df !! backtracked i = Some first →
  alert_start_logic df row
  = inr (Index first, anomaly_type first,
         AlertStarted (Index row) (Index first) (anomaly_type first)
           (measurement_value (point first))
           (measurement_value (point row)) (mean row)
           (lower_bound row) (upper_bound row)).
Proof.
  intros Hasc Hrow Hfirst. unfold_try_block.
  rewrite (get_loc_unique _ i (Index row) Hasc)
    by (rewrite list_lookup_fmap, Hrow; reflexivity).
  cbn [backtrack]. unfold at_pos. fold (backtracked i).
  rewrite list_lookup_fmap, Hfirst. reflexivity.
Qed.

Lemma alert_resolve_logic_ascending df s i row first :
  strictly_ascending (Index <$> df) = true →
  df !! i = Some row → df !! backtracked i = Some first →
  alert_resolve_logic df s row
  = inr (AlertResolved (Index row) (Index first)
           (alert_start_timestamp s) (initial_anomaly_type s)
           (measurement_value (point row)) (mean row)).
Proof.
  intros Hasc Hrow Hfirst. unfold_try_block.
  rewrite (get_loc_unique _ i (Index row) Hasc)
    by (rewrite list_lookup_fmap, Hrow; reflexivity).
  cbn [backtrack]. unfold at_pos. fold (backtracked i).
  rewrite list_lookup_fmap, Hfirst. reflexivity.
Qed.

Lemma step_no_error df s i row :
  strictly_ascending (Index <$> df) = true → df !! i = Some row →
  Forall (λ e, is_error e = false) (step df s row).2.
Proof.
  intros Hasc Hrow.
  destruct (backtracked_lookup df i row Hrow) as [first Hfirst].
  unfold step.
  rewrite (alert_start_logic_ascending df i row first Hasc Hrow Hfirst).
  rewrite (alert_resolve_logic_ascending df s i row first Hasc Hrow Hfirst).
  destruct (is_anomaly row); case_bool_decide; destruct (alert_active s); cbn;
    repeat constructor.
Qed.

Lemma run_no_error df rows s :
  strictly_ascending (Index <$> df) = true → rows ⊆ df →
  Forall (λ e, is_error e = false) (run df s rows).2.
Proof.
  intros Hasc. revert s. induction rows as [|row rows IH]; intros s Hsub.
  - constructor.
  - rewrite run_cons. cbn [snd]. apply Forall_app. split.
    + assert (row ∈ df) as [i Hi]%list_elem_of_lookup
        by (apply Hsub; left).
      eapply step_no_error; eassumption.
    + apply IH. intros r Hr. apply Hsub. right. exact Hr.
Qed.

Lemma alternates_without_errors active reports :
  Forall (λ e, is_error e = false) reports →
  alternates active reports = alternates_with_failures active reports.
Proof.
  intros Hok. revert active.
  induction Hok as [|e reports He _ IH]; intros active; [ reflexivity | ].
  destruct e; cbn in *; try discriminate; rewrite ?IH; reflexivity.
Qed.

(** ** AlertStateMachine: streak bookkeeping *)

Lemma streak_of_incr f df n c row :
  df !! n = Some row → f row = true →
  streak_of f df n c → streak_of f df (S n) (c + 1).
Proof.
  intros Hrow Hf (Hc & Hin & Hout). split; [ lia | split ].
  - intros j r Hj Hr. destruct (decide (j = n)) as [->|Hne].
    + congruence.
    + apply (Hin j r); [ lia | exact Hr ].
  - intros j r Hj Hr. apply (Hout j r); [ lia | exact Hr ].
Qed.

Lemma streak_of_reset f df n row :
  df !! n = Some row → f row = false → streak_of f df (S n) 0.
Proof.
  intros Hrow Hf. split; [ lia | split ].
  - intros j r Hj Hr. lia.
  - intros j r Hj Hr. assert (j = n) as -> by lia. congruence.
Qed.

Lemma step_invariant df n s row :
  strictly_ascending (Index <$> df) = true →
  df !! n = Some row →
  machine_invariant df n s →
  machine_invariant df (S n) (step df s row).1.
Proof.
  intros Hasc Hrow (Ha & Hn & Hinactive & Hactive).
  destruct (backtracked_lookup df n row Hrow) as [first Hfirst].
  unfold step.
  rewrite (alert_start_logic_ascending df n row first Hasc Hrow Hfirst).
  rewrite (alert_resolve_logic_ascending df s n row first Hasc Hrow Hfirst).
  unfold machine_invariant, CONSECUTIVE_MINUTES_THRESHOLD in *.
  destruct (is_anomaly row) eqn:Hflag.
  - assert (streak_of is_anomaly df (S n) (anomaly_streak s + 1)) as Ha'
      by (eapply streak_of_incr; eassumption).
    assert (streak_of is_normal df (S n) 0) as Hn'
      by (eapply streak_of_reset; [ eassumption | unfold is_normal; rewrite Hflag; reflexivity ]).
    case_bool_decide; destruct (alert_active s) eqn:Hact; cbn;
      repeat split; try apply Ha'; try apply Hn'; try lia; try discriminate.
  - assert (streak_of is_normal df (S n) (normal_streak s + 1)) as Hn'
      by (eapply streak_of_incr; [ eassumption | unfold is_normal; rewrite Hflag; reflexivity | assumption ]).
    assert (streak_of is_anomaly df (S n) 0) as Ha'
      by (eapply streak_of_reset; eassumption).
    assert ((if bool_decide (anomaly_streak s > 0) then 0 else anomaly_streak s) = 0)
      as -> by (destruct Ha as [? _]; case_bool_decide; lia).
    case_bool_decide; destruct (alert_active s) eqn:Hact; cbn;
      repeat split; try apply Ha'; try apply Hn'; try lia; try discriminate.
Qed.

Lemma state_after_invariant df n :
  strictly_ascending (Index <$> df) = true →
  (n ≤ length df)%nat →
  machine_invariant df n (state_after df n).
Proof.
  intros Hasc. induction n as [|n IH]; intros Hlen.
  - unfold state_after, initial_state. rewrite take_0. cbn [run fst].
    unfold machine_invariant, streak_of, CONSECUTIVE_MINUTES_THRESHOLD.
    cbn [anomaly_streak normal_streak alert_active].
    repeat split; intros; try lia; try discriminate.
  - destruct (lookup_lt_is_Some_2 df n) as [row Hrow]; [ lia | ].
    rewrite (state_after_S df n row Hrow).
    apply step_invariant; [ exact Hasc | exact Hrow | apply IH; lia ].
Qed.

(** ** AlertStateMachine: transitions and reports *)

(** An outage of ten minutes followed by ten normal minutes: one AlertStarted
    at the tenth anomaly, estimated at the first, and one AlertResolved at the
    tenth normal row, estimated at the first normal row. *)
Example outage_reports :
  monitor_and_alert (Some outage_frame)
  = [AlertStarted (9 * Calendar.ns_per_minute) 0 Zero 0 0 250 235 265;
     AlertResolved (19 * Calendar.ns_per_minute) (10 * Calendar.ns_per_minute)
       (Some 0) (Some Zero) 250 250].
Proof. vm_compute. reflexivity. Qed.

(** Scenarios C and D of the specification: nine normal minutes and then an
    anomaly do not resolve the alert, which is still active at the end. *)
Example scenario_C_D_still_active :
  monitor_and_alert
    (Some (sample_rows 0 10 true ++ sample_rows 10 9 false
           ++ sample_rows 19 1 true))
  = [AlertStarted (9 * Calendar.ns_per_minute) 0 Zero 0 0 250 235 265;
     AlertStillActive (Some 0) (Some Zero)].
Proof. vm_compute. reflexivity. Qed.

(** C2 (as stated, refuted). On [duplicate_frame] the tenth normal row shares
    its timestamp with the next row, so its resolution lookup fails: the alert
    is dropped without an AlertResolved, and the next ten anomalies print a
    second AlertStarted right after the first. *)
Lemma C2_alternation_counterexample :
  is_started <$> monitor_and_alert (Some duplicate_frame)
    = [true; false; true; false]
  ∧ is_resolved <$> monitor_and_alert (Some duplicate_frame)
    = [false; false; false; false]
  ∧ alternates false (monitor_and_alert (Some duplicate_frame)) = false.
Proof. repeat split; vm_compute; reflexivity. Qed.

(** C2 (amended). In every frame an AlertStarted is printed only by an
    iteration that begins Inactive (and makes the machine Active), and an
    AlertResolved only by one that begins Active (and makes it Inactive); the
    AlertStarted reports alternate with the ends of alerts, an end being an
    AlertResolved or the report of a failed resolution; and when the timestamps
    are strictly ascending the AlertStarted and AlertResolved reports
    themselves alternate, beginning with an AlertStarted. *)
Theorem C2_debounced_transitions (df : list Verdict) :
  (∀ s row e, e ∈ (step df s row).2 →
     (is_started e = true →
      alert_active s = false ∧ alert_active (step df s row).1 = true)
     ∧ (is_resolved e = true →
        alert_active s = true ∧ alert_active (step df s row).1 = false))
  ∧ alternates_with_failures false (monitor_and_alert (Some df)) = true
  ∧ (strictly_ascending (Index <$> df) = true →
     alternates false (monitor_and_alert (Some df)) = true).
Proof.
  assert (alternates_with_failures false (monitor_and_alert (Some df)) = true)
    as Hwf.
  { unfold monitor_and_alert.
    destruct (run df initial_state df) as [s reports] eqn:Hrun.
    change false with (alert_active initial_state).
    replace reports with (run df initial_state df).2 by (rewrite Hrun; reflexivity).
    apply run_alternates_with_failures. rewrite Hrun. cbn [fst].
    destruct (alert_active s); reflexivity. }
  split; [ | split; [ exact Hwf | ] ].
  - intros s row e He.
    destruct (step_shape df s row) as [ | ? ? ? Ha _ | ? Ha _ | ? ? Ha _ | ? ? Ha _ ];
      cbn in *.
    + apply elem_of_nil in He. contradiction.
    + apply list_elem_of_singleton in He as ->. cbn. split; [ auto | discriminate ].
    + apply list_elem_of_singleton in He as ->. cbn. split; discriminate.
    + apply list_elem_of_singleton in He as ->. cbn. split; [ discriminate | auto ].
    + apply list_elem_of_singleton in He as ->. cbn. split; discriminate.
  - intros Hasc. rewrite alternates_without_errors; [ exact Hwf | ].
    unfold monitor_and_alert.
    pose proof (run_no_error df df initial_state Hasc (reflexivity _)) as Hok.
    destruct (run df initial_state df) as [s reports]. cbn [snd] in Hok.
    apply Forall_app. split; [ exact Hok | ].
    destruct (alert_active s); repeat constructor.
Qed.

Lemma C2_debounced_transitions_witness :
  alternates false (monitor_and_alert (Some outage_frame)) = true.
Proof.
  apply (proj2 (proj2 (C2_debounced_transitions outage_frame))).
  vm_compute. reflexivity.
Defined.

(** C7. In a frame with strictly ascending timestamps, when the state before
    row [i] is Inactive and the anomalous row [i] brings the anomaly streak to
    [CONSECUTIVE_MINUTES_THRESHOLD], the iteration makes the machine Active
    and prints one report, an AlertStarted whose estimated start and initial
    type are the timestamp and the type of the row at position
    [max(0, i - (CONSECUTIVE_MINUTES_THRESHOLD - 1))], which are stored. That
    row is nine positions back, the first of the streak: every row from it to
    row [i] is anomalous and the row before it, if any, is not. *)
Theorem C7_alert_started (df : list Verdict) (i : nat) (row : Verdict) :
  strictly_ascending (Index <$> df) = true →
  df !! i = Some row →
  alert_active (state_after df i) = false →
  is_anomaly row = true →
  anomaly_streak (state_after df i) + 1 >= CONSECUTIVE_MINUTES_THRESHOLD →
  ∃ first,
    df !! Z.to_nat (Z.max 0 (Z.of_nat i - (CONSECUTIVE_MINUTES_THRESHOLD - 1)))
      = Some first
    ∧ step df (state_after df i) row
      = (mkState true (anomaly_streak (state_after df i) + 1) 0
           (Some (Index first)) (Some (anomaly_type first)),
         [AlertStarted (Index row) (Index first) (anomaly_type first)
            (measurement_value (point first))
            (measurement_value (point row)) (mean row)
            (lower_bound row) (upper_bound row)])
    ∧ (backtracked i + 9 = i)%nat
    ∧ (∀ j r, (backtracked i ≤ j ≤ i)%nat → df !! j = Some r →
              is_anomaly r = true)
    ∧ (∀ j r, S j = backtracked i → df !! j = Some r → is_anomaly r = false).
Proof.
  intros Hasc Hrow Hinactive Hflag Hstreak.
  destruct (backtracked_lookup df i row Hrow) as [first Hfirst].
  exists first. split; [ exact Hfirst | ].
  destruct (state_after_invariant df i Hasc) as ((Hc & Hin & Hout) & _ & Hlt & _).
  { apply lookup_lt_Some in Hrow. lia. }
  specialize (Hlt Hinactive).
  unfold CONSECUTIVE_MINUTES_THRESHOLD in *.
  assert (anomaly_streak (state_after df i) = 9) as Hnine by lia.
  assert (backtracked i + 9 = i)%nat as Hback
    by (unfold backtracked, CONSECUTIVE_MINUTES_THRESHOLD; lia).
  split; [ | split; [ exact Hback | split ] ].
  - unfold step. rewrite Hflag, Hinactive.
    rewrite (alert_start_logic_ascending df i row first Hasc Hrow Hfirst).
    rewrite bool_decide_eq_true_2
      by (unfold CONSECUTIVE_MINUTES_THRESHOLD; lia).
    reflexivity.
  - intros j r Hj Hr. destruct (decide (j = i)) as [->|Hne].
    + congruence.
    + apply (Hin j r); [ lia | exact Hr ].
  - intros j r Hj Hr. apply (Hout j r); [ lia | exact Hr ].
Qed.

Lemma C7_alert_started_witness :
  ∃ first,
    outage_frame
      !! Z.to_nat (Z.max 0 (Z.of_nat 9 - (CONSECUTIVE_MINUTES_THRESHOLD - 1)))
      = Some first
    ∧ step outage_frame (state_after outage_frame 9) (sample_row 9 true)
      = (mkState true (anomaly_streak (state_after outage_frame 9) + 1) 0
           (Some (Index first)) (Some (anomaly_type first)),
         [AlertStarted (Index (sample_row 9 true)) (Index first)
            (anomaly_type first) (measurement_value (point first))
            (measurement_value (point (sample_row 9 true)))
            (mean (sample_row 9 true))
            (lower_bound (sample_row 9 true)) (upper_bound (sample_row 9 true))])
    ∧ (backtracked 9 + 9 = 9)%nat
    ∧ (∀ j r, (backtracked 9 ≤ j ≤ 9)%nat → outage_frame !! j = Some r →
              is_anomaly r = true)
    ∧ (∀ j r, S j = backtracked 9 → outage_frame !! j = Some r →
              is_anomaly r = false).
Proof.
  apply (C7_alert_started outage_frame 9 (sample_row 9 true));
    vm_compute; first [ reflexivity | discriminate ].
Defined.

(** C8. In a frame with strictly ascending timestamps, when the state before
    row [i] is Active and the normal row [i] brings the normal streak to
    [CONSECUTIVE_MINUTES_THRESHOLD], the iteration makes the machine Inactive
    and prints one report, an AlertResolved whose estimated resolve time is the
    timestamp at position [max(0, i - (CONSECUTIVE_MINUTES_THRESHOLD - 1))]
    (nine positions back, the first row of the normal streak) and which
    carries the stored start time and type, those of the AlertStarted that
    opened the alert; both stored fields are cleared afterwards. *)
Theorem C8_alert_resolved (df : list Verdict) (i : nat) (row : Verdict) :
  strictly_ascending (Index <$> df) = true →
  df !! i = Some row →
  alert_active (state_after df i) = true →
  is_anomaly row = false →
  normal_streak (state_after df i) + 1 >= CONSECUTIVE_MINUTES_THRESHOLD →
  ∃ first start ty,
    df !! Z.to_nat (Z.max 0 (Z.of_nat i - (CONSECUTIVE_MINUTES_THRESHOLD - 1)))
      = Some first
    ∧ open_alert (reports_before df i) = Some (start, ty)
    ∧ alert_start_timestamp (state_after df i) = Some start
    ∧ initial_anomaly_type (state_after df i) = Some ty
    ∧ step df (state_after df i) row
      = (mkState false 0 (normal_streak (state_after df i) + 1) None None,
         [AlertResolved (Index row) (Index first) (Some start) (Some ty)
            (measurement_value (point row)) (mean row)])
    ∧ (backtracked i + 9 = i)%nat
    ∧ (∀ j r, (backtracked i ≤ j ≤ i)%nat → df !! j = Some r →
              is_anomaly r = false)
    ∧ (∀ j r, S j = backtracked i → df !! j = Some r → is_anomaly r = true).
Proof.
  intros Hasc Hrow Hactive Hflag Hstreak.
  destruct (backtracked_lookup df i row Hrow) as [first Hfirst].
  pose proof (open_alert_while_active df (take i df)) as Hopen.
  cbv zeta in Hopen. fold (state_after df i) (reports_before df i) in Hopen.
  destruct (Hopen Hactive) as (start & ty & Hstart & Hty & Hreports).
  clear Hopen. rename Hreports into Hopen.
  exists first, start, ty. split; [ exact Hfirst | ].
  split; [ exact Hopen | ]. split; [ exact Hstart | ]. split; [ exact Hty | ].
  destruct (state_after_invariant df i Hasc)
    as ((Ha & _) & (Hc & Hin & Hout) & _ & Hlt).
  { apply lookup_lt_Some in Hrow. lia. }
  specialize (Hlt Hactive).
  unfold CONSECUTIVE_MINUTES_THRESHOLD in *.
  assert (normal_streak (state_after df i) = 9) as Hnine by lia.
  assert (backtracked i + 9 = i)%nat as Hback
    by (unfold backtracked, CONSECUTIVE_MINUTES_THRESHOLD; lia).
  assert (∀ r, is_normal r = true ↔ is_anomaly r = false) as Hnormal
    by (intros r; unfold is_normal; destruct (is_anomaly r); cbn; split; congruence).
  assert (∀ r, is_normal r = false ↔ is_anomaly r = true) as Hnot_normal
    by (intros r; unfold is_normal; destruct (is_anomaly r); cbn; split; congruence).
  split; [ | split; [ exact Hback | split ] ].
  - unfold step. rewrite Hflag, Hactive.
    rewrite (alert_resolve_logic_ascending df _ i row first Hasc Hrow Hfirst).
    rewrite Hstart, Hty.
    rewrite (bool_decide_eq_true_2 (_ >= _))
      by (unfold CONSECUTIVE_MINUTES_THRESHOLD; lia).
    cbn [andb].
    replace (if bool_decide (anomaly_streak (state_after df i) > 0) then 0
             else anomaly_streak (state_after df i)) with 0
      by (case_bool_decide; lia).
    reflexivity.
  - intros j r Hj Hr. destruct (decide (j = i)) as [->|Hne].
    + congruence.
    + apply Hnormal, (Hin j r); [ lia | exact Hr ].
  - intros j r Hj Hr. apply Hnot_normal, (Hout j r); [ lia | exact Hr ].
Qed.

Lemma C8_alert_resolved_witness :
  ∃ first start ty,
    outage_frame
      !! Z.to_nat (Z.max 0 (Z.of_nat 19 - (CONSECUTIVE_MINUTES_THRESHOLD - 1)))
      = Some first
    ∧ open_alert (reports_before outage_frame 19) = Some (start, ty)
    ∧ alert_start_timestamp (state_after outage_frame 19) = Some start
    ∧ initial_anomaly_type (state_after outage_frame 19) = Some ty
    ∧ step outage_frame (state_after outage_frame 19) (sample_row 19 false)
      = (mkState false 0 (normal_streak (state_after outage_frame 19) + 1)
           None None,
         [AlertResolved (Index (sample_row 19 false)) (Index first)
            (Some start) (Some ty)
            (measurement_value (point (sample_row 19 false)))
            (mean (sample_row 19 false))])
    ∧ (backtracked 19 + 9 = 19)%nat
    ∧ (∀ j r, (backtracked 19 ≤ j ≤ 19)%nat → outage_frame !! j = Some r →
              is_anomaly r = false)
    ∧ (∀ j r, S j = backtracked 19 → outage_frame !! j = Some r →
              is_anomaly r = true).
Proof.
  apply (C8_alert_resolved outage_frame 19 (sample_row 19 false));
    vm_compute; first [ reflexivity | discriminate ].
Defined.

(** C9. Whenever the backtracking lookup fails in an iteration that attempts a
    transition (a start from Inactive or a resolution from Active), the
    iteration still completes: it prints the error report and nothing else,
    leaves the machine Inactive with the start time and type cleared and the
    streak counters as the bookkeeping set them, and the loop goes on over the
    remaining rows from that state. *)
Theorem C9_lookup_failure_recovery (df : list Verdict) (s : AlertState)
    (row : Verdict) (rest : list Verdict) (e : Exn) :
  backtrack_lookup df row = inl e →
  (is_anomaly row = true
   ∧ anomaly_streak s + 1 >= CONSECUTIVE_MINUTES_THRESHOLD
   ∧ alert_active s = false)
  ∨ (is_anomaly row = false
     ∧ normal_streak s + 1 >= CONSECUTIVE_MINUTES_THRESHOLD
     ∧ alert_active s = true) →
  ∃ s' report,
    step df s row = (s', [report])
    ∧ report = (if is_anomaly row then AlertStartError (Index row) e
                else AlertResolveError (Index row) e)
    ∧ alert_active s' = false
    ∧ alert_start_timestamp s' = None
    ∧ initial_anomaly_type s' = None
    ∧ provenance_only_when_active s'
    ∧ anomaly_streak s'
      = (if is_anomaly row then anomaly_streak s + 1
         else if bool_decide (anomaly_streak s > 0) then 0
         else anomaly_streak s)
    ∧ normal_streak s' = (if is_anomaly row then 0 else normal_streak s + 1)
    ∧ run df s (row :: rest)
      = ((run df s' rest).1, report :: (run df s' rest).2).
Proof.
  intros Hfail Hattempt.
  assert (alert_start_logic df row = inl e) as Hstart.
  { revert Hfail. unfold backtrack_lookup. unfold_try_block.
    destruct (get_loc _ _) as [|loc]; [ congruence | ].
    destruct (backtrack _ _); [ congruence | discriminate ]. }
  assert (alert_resolve_logic df s row = inl e) as Hresolve.
  { revert Hfail. unfold backtrack_lookup. unfold_try_block.
    destruct (get_loc _ _) as [|loc]; [ congruence | ].
    destruct (backtrack _ _); [ congruence | discriminate ]. }
  rewrite run_cons. unfold step. rewrite Hstart, Hresolve.
  destruct Hattempt as [(Hflag & Hstreak & Hact) | (Hflag & Hstreak & Hact)];
    rewrite Hflag, Hact;
    rewrite (bool_decide_eq_true_2 (_ >= _)) by exact Hstreak;
    cbn [andb negb fst snd];
    eexists _, _; repeat split; try reflexivity;
    intros _; split; reflexivity.
Qed.

Lemma C9_lookup_failure_recovery_witness :
  ∃ s' report,
    step duplicate_frame (state_after duplicate_frame 19) (sample_row 19 false)
      = (s', [report])
    ∧ report = (if is_anomaly (sample_row 19 false)
                then AlertStartError (Index (sample_row 19 false)) TypeError
                else AlertResolveError (Index (sample_row 19 false)) TypeError)
    ∧ alert_active s' = false
    ∧ alert_start_timestamp s' = None
    ∧ initial_anomaly_type s' = None
    ∧ provenance_only_when_active s'
    ∧ anomaly_streak s'
      = (if is_anomaly (sample_row 19 false)
         then anomaly_streak (state_after duplicate_frame 19) + 1
         else if bool_decide (anomaly_streak (state_after duplicate_frame 19) > 0)
              then 0
         else anomaly_streak (state_after duplicate_frame 19))
    ∧ normal_streak s'
      = (if is_anomaly (sample_row 19 false) then 0
         else normal_streak (state_after duplicate_frame 19) + 1)
    ∧ run duplicate_frame (state_after duplicate_frame 19)
        (sample_row 19 false :: drop 20 duplicate_frame)
      = ((run duplicate_frame s' (drop 20 duplicate_frame)).1,
         report :: (run duplicate_frame s' (drop 20 duplicate_frame)).2).
Proof.
  apply (C9_lookup_failure_recovery duplicate_frame
           (state_after duplicate_frame 19) (sample_row 19 false)
           (drop 20 duplicate_frame) TypeError).
  - vm_compute. reflexivity.
  - right. vm_compute. repeat split; discriminate.
Defined.

(** C10. After every processed row, in every frame (the error branches
    included), an Inactive machine stores neither a start time nor an initial
    type. *)
Theorem C10_provenance_only_when_active (df : list Verdict) (n : nat) :
  alert_active (state_after df n) = false →
  alert_start_timestamp (state_after df n) = None
  ∧ initial_anomaly_type (state_after df n) = None.
Proof.
  apply (run_provenance df (take n df) initial_state).
  intros _. split; reflexivity.
Qed.

Lemma C10_provenance_only_when_active_witness :
  alert_start_timestamp (state_after duplicate_frame 20) = None
  ∧ initial_anomaly_type (state_after duplicate_frame 20) = None.
Proof.
  apply (C10_provenance_only_when_active duplicate_frame 20).
  vm_compute. reflexivity.
Defined.

(** * Further properties of the code *)

(** ** The baseline table *)

Lemma bucket_values_nil (k : Z) (df : list TimePoint) :
  bucket_values k df = [] ↔
  ∀ p, p ∈ df → Calendar.minute_of_week (time p) ≠ k.
Proof.
  unfold bucket_values. split.
  - intros Hnil%fmap_nil_inv p Hp Hk.
    assert (p ∈ filter (λ p, Calendar.minute_of_week (time p) = k) df) as Hin
      by (apply list_elem_of_filter; split; assumption).
    rewrite Hnil in Hin. apply elem_of_nil in Hin. exact Hin.
  - intros Hnone. induction df as [|p df IH]; [ reflexivity | ].
    rewrite filter_cons_False by (apply Hnone; left).
    apply IH. intros q Hq. apply Hnone. right. exact Hq.
Qed.

Lemma bucket_values_elem (k : Z) (df : list TimePoint) (x : R) :
  x ∈ bucket_values k df → ∃ p, p ∈ df ∧ measurement_value p = x.
Proof.
  unfold bucket_values. intros (p & -> & Hp)%list_elem_of_fmap.
  apply list_elem_of_filter in Hp as [_ Hp]. exists p. split; [ exact Hp | reflexivity ].
Qed.

Lemma baseline_table_lookup (baseline_df : list TimePoint) (k : Z) :
  calculate_baseline_stats (Some baseline_df) ≫= (λ stats, stats !! k)
  = if decide (bucket_values k baseline_df = []) then None
    else Some (agg_mean (bucket_values k baseline_df),
               default 0%R (agg_std (bucket_values k baseline_df))).
Proof.
  unfold calculate_baseline_stats. cbn [mbind option_bind].
  rewrite !lookup_fmap, groupby_lookup. case_decide; reflexivity.
Qed.

Lemma agg_std_nonneg (g : list R) : (0 <= default 0 (agg_std g))%R.
Proof.
  unfold agg_std. case_decide; cbn; [ lra | apply sqrt_pos ].
Qed.

(** X1. The table has a row for bucket [k] exactly when some baseline point
    falls into bucket [k]; its keys are minutes of the week. *)
Theorem baseline_table_keys (baseline_df : list TimePoint) (k : Z) :
  ∃ stats,
    calculate_baseline_stats (Some baseline_df) = Some stats
    ∧ (is_Some (stats !! k) ↔
       ∃ p, p ∈ baseline_df ∧ Calendar.minute_of_week (time p) = k)
    ∧ (is_Some (stats !! k) → 0 ≤ k < 10080).
Proof.
  pose proof (baseline_table_lookup baseline_df k) as Hlookup.
  destruct (calculate_baseline_stats (Some baseline_df)) as [stats|] eqn:Hstats;
    [ | discriminate ].
  exists stats. split; [ reflexivity | ]. cbn [mbind option_bind] in Hlookup.
  assert (is_Some (stats !! k) ↔
          ∃ p, p ∈ baseline_df ∧ Calendar.minute_of_week (time p) = k) as Hiff.
  { rewrite Hlookup. case_decide as Hg.
    - split; [ intros [? ?]; discriminate | ].
      intros (p & Hp & Hk). exfalso.
      exact (proj1 (bucket_values_nil k baseline_df) Hg p Hp Hk).
    - split; [ intros _ | eauto ].
      destruct (bucket_values k baseline_df) as [|x g] eqn:Hvalues;
        [ congruence | ].
      assert (x ∈ bucket_values k baseline_df) as Hx
        by (rewrite Hvalues; left).
      unfold bucket_values in Hx.
      apply list_elem_of_fmap in Hx as (p & _ & Hp).
      apply list_elem_of_filter in Hp as [Hk Hp]. eauto. }
  split; [ exact Hiff | ].
  intros (p & _ & <-)%Hiff. apply minute_of_week_range.
Qed.

(** ** The classifier *)

Lemma detect_anomalies_pointwise (df : list TimePoint) (stats : gmap Z (R * R)) :
  detect_anomalies (Some df) (Some stats) = Some (point_verdict stats <$> df).
Proof.
  unfold detect_anomalies. rewrite detect_anomalies_body_pointwise. reflexivity.
Qed.

Lemma point_deviation_side stats p :
  point_deviation stats p = true →
  ((measurement_value p < point_lower stats p)%R
   ∨ (measurement_value p > point_upper stats p)%R)
  ∧ (point_std stats p > STD_DEV_EPSILON)%R.
Proof.
  unfold point_deviation.
  rewrite andb_true_iff, orb_true_iff, !bool_decide_eq_true. tauto.
Qed.

(** X3. In every returned row the flag and the type agree: the row is flagged
    exactly when its type is not Normal. The type also tells where the value
    lies: Zero only for a value 0 against a mean of at least
    [BASELINE_ZERO_THRESHOLD], Low only under the lower bound and High only
    over the upper bound, both only when [std > STD_DEV_EPSILON]. *)
Theorem flag_and_type_agree (df : list TimePoint) (stats : gmap Z (R * R)) :
  ∃ out,
    detect_anomalies (Some df) (Some stats) = Some out
    ∧ Forall (λ v,
        (is_anomaly v = true ↔ anomaly_type v ≠ Normal)
        ∧ (anomaly_type v = Zero → zero_rule v)
        ∧ (anomaly_type v = Low →
           (measurement_value (point v) < lower_bound v)%R
           ∧ (std v > STD_DEV_EPSILON)%R ∧ ¬ zero_rule v)
        ∧ (anomaly_type v = High →
           (measurement_value (point v) > upper_bound v)%R
           ∧ (std v > STD_DEV_EPSILON)%R ∧ ¬ zero_rule v)) out.
Proof.
  eexists. split; [ apply detect_anomalies_pointwise | ].
  apply Forall_fmap, Forall_forall. intros p _. cbn.
  pose proof (point_zero_rule stats p) as Hz.
  pose proof (point_deviation_side stats p) as Hd.
  unfold point_type.
  destruct (point_zero stats p) eqn:Hzero.
  { rewrite orb_true_r. split_and!; try discriminate.
    - split; [ discriminate | reflexivity ].
    - intros _. apply Hz. reflexivity. }
  assert (¬ zero_rule (point_verdict stats p)) as Hnz
    by (intros H; apply Hz in H; discriminate).
  rewrite orb_false_r.
  destruct (point_deviation stats p) eqn:Hdev; cbn [andb].
  - destruct Hd as [Hside Hstd]; [ reflexivity | ].
    case_bool_decide as Hlow; [ | case_bool_decide as Hhigh ].
    + split_and!; try discriminate.
      * split; [ discriminate | reflexivity ].
      * intros _. split_and!; assumption.
    + split_and!; try discriminate.
      * split; [ discriminate | reflexivity ].
      * intros _. split_and!; assumption.
    + exfalso. tauto.
  - split_and!; try discriminate. split; [ discriminate | congruence ].
Qed.

(** X4. Classification works row by row: the frame returned for a
    concatenation is the concatenation of the frames returned for the parts,
    and the returned frame keeps the index of the measured frame, row for
    row. *)
Theorem detect_anomalies_app (df1 df2 : list TimePoint) (stats : gmap Z (R * R)) :
  ∃ out1 out2,
    detect_anomalies (Some df1) (Some stats) = Some out1
    ∧ detect_anomalies (Some df2) (Some stats) = Some out2
    ∧ detect_anomalies (Some (df1 ++ df2)) (Some stats) = Some (out1 ++ out2)
    ∧ Index <$> out1 = time <$> df1
    ∧ point <$> out1 = df1.
Proof.
  eexists _, _. rewrite !detect_anomalies_pointwise, fmap_app.
  repeat split; try reflexivity.
  - rewrite <- list_fmap_compose. reflexivity.
  - rewrite <- list_fmap_compose. apply list_fmap_id.
Qed.

(** X5. When the bucket of a measured point has a standard deviation of at
    most [STD_DEV_EPSILON] in the table, only the zero rule can flag the
    point: it is flagged exactly when its value is 0 and the bucket mean is at
    least [BASELINE_ZERO_THRESHOLD], and its type is Zero or Normal. *)
Theorem quiet_bucket_guard (df : list TimePoint) (stats : gmap Z (R * R))
    (i : nat) (p : TimePoint) (m s : R) :
  df !! i = Some p →
  stats !! Calendar.minute_of_week (time p) = Some (m, s) →
  (s <= STD_DEV_EPSILON)%R →
  ∃ v,
    detect_anomalies (Some df) (Some stats) ≫= (λ out, out !! i) = Some v
    ∧ mean v = m ∧ std v = s
    ∧ (is_anomaly v = true ↔
       measurement_value p = 0%R ∧ (m >= BASELINE_ZERO_THRESHOLD)%R)
    ∧ (anomaly_type v = Zero ∨ anomaly_type v = Normal).
Proof.
  intros Hp Hk Hs. exists (point_verdict stats p).
  rewrite detect_anomalies_pointwise. cbn [mbind option_bind].
  rewrite list_lookup_fmap, Hp. cbn.
  assert (point_mean stats p = m) as Hm
    by (unfold point_mean; rewrite Hk; reflexivity).
  assert (point_std stats p = s) as Hstd
    by (unfold point_std; rewrite Hk; reflexivity).
  assert (point_deviation stats p = false) as Hdev.
  { unfold point_deviation. rewrite Hstd.
    rewrite (bool_decide_eq_false_2 (s > STD_DEV_EPSILON)%R) by lra.
    apply andb_false_r. }
  split_and!; try assumption; try reflexivity.
  - rewrite Hdev. cbn [orb]. unfold point_zero.
    rewrite andb_true_iff, !bool_decide_eq_true, Hm. reflexivity.
  - unfold point_type. rewrite Hdev. cbn [andb].
    destruct (point_zero stats p); auto.
Qed.

Lemma quiet_bucket_guard_witness :
  ∃ v,
    detect_anomalies (Some [mkPoint 0 0%R])
      (Some {[Calendar.minute_of_week 0 := (250, 0)%R]})
      ≫= (λ out, out !! 0%nat) = Some v
    ∧ mean v = 250%R ∧ std v = 0%R
    ∧ (is_anomaly v = true ↔
       measurement_value (mkPoint 0 0%R) = 0%R
       ∧ (250 >= BASELINE_ZERO_THRESHOLD)%R)
    ∧ (anomaly_type v = Zero ∨ anomaly_type v = Normal).
Proof.
  apply (quiet_bucket_guard [mkPoint 0 0%R]
           {[Calendar.minute_of_week 0 := (250, 0)%R]} 0 (mkPoint 0 0%R)).
  - reflexivity.
  - apply lookup_singleton_eq.
  - unfold STD_DEV_EPSILON. lra.
Defined.

(** ** The baseline table and the classifier together *)

Lemma series_sum_nonneg (g : list R) :
  Forall (λ x, 0 <= x)%R g → (0 <= series_sum g)%R.
Proof.
  induction 1 as [|x g Hx _ IH]; [ cbn; lra | ].
  change (series_sum (x :: g)) with (x + series_sum g)%R. lra.
Qed.

Lemma agg_mean_nonneg (g : list R) :
  g ≠ [] → Forall (λ x, 0 <= x)%R g → (0 <= agg_mean g)%R.
Proof.
  intros Hg Hall. unfold agg_mean, Rdiv.
  apply Rmult_le_pos; [ apply series_sum_nonneg, Hall | ].
  apply Rlt_le, Rinv_0_lt_compat, lt_0_INR.
  destruct g; [ congruence | cbn; lia ].
Qed.

Lemma table_point_nonneg (baseline_df : list TimePoint) stats (p : TimePoint) :
  Forall (λ p, 0 <= measurement_value p)%R baseline_df →
  calculate_baseline_stats (Some baseline_df) = Some stats →
  (0 <= point_mean stats p)%R ∧ (0 <= point_std stats p)%R.
Proof.
  intros Hall Hstats.
  pose proof (baseline_table_lookup baseline_df
                (Calendar.minute_of_week (time p))) as Hlookup.
  rewrite Hstats in Hlookup. cbn [mbind option_bind] in Hlookup.
  unfold point_mean, point_std. rewrite Hlookup.
  case_decide as Hg; cbn; [ lra | ]. split.
  - apply agg_mean_nonneg; [ exact Hg | ].
    apply Forall_forall. intros x (q & Hq & <-)%bucket_values_elem.
    exact (proj1 (Forall_forall _ _) Hall q Hq).
  - apply agg_std_nonneg.
Qed.

(** X6. With a baseline of non-negative values, every row the classifier
    returns against the computed table has [0 <= lower_bound <= mean
    <= upper_bound] and [std >= 0]: no value can be under the lower bound and
    over the upper bound at once. *)
Theorem pipeline_bounds_ordered (baseline_df measured_df : list TimePoint) :
  Forall (λ p, 0 <= measurement_value p)%R baseline_df →
  ∃ stats out,
    calculate_baseline_stats (Some baseline_df) = Some stats
    ∧ detect_anomalies (Some measured_df) (Some stats) = Some out
    ∧ Forall (λ v, (0 <= lower_bound v <= mean v)%R
                   ∧ (mean v <= upper_bound v)%R
                   ∧ (0 <= std v)%R) out.
Proof.
  intros Hall.
  destruct (calculate_baseline_stats (Some baseline_df)) as [stats|] eqn:Hstats;
    [ | discriminate ].
  exists stats. eexists. split; [ reflexivity | ].
  split; [ apply detect_anomalies_pointwise | ].
  apply Forall_fmap, Forall_forall. intros p _. cbn.
  destruct (table_point_nonneg baseline_df stats p Hall Hstats) as [Hm Hs].
  unfold point_lower, point_upper, STD_DEV_THRESHOLD.
  split_and!; try assumption; try lra.
  - apply Rmax_l.
  - apply Rmax_lub; lra.
Qed.

Lemma pipeline_bounds_ordered_witness :
  ∃ stats out,
    calculate_baseline_stats (Some [mkPoint 0 5%R; mkPoint 60000000000 7%R])
      = Some stats
    ∧ detect_anomalies (Some [mkPoint 0 9%R]) (Some stats) = Some out
    ∧ Forall (λ v, (0 <= lower_bound v <= mean v)%R
                   ∧ (mean v <= upper_bound v)%R
                   ∧ (0 <= std v)%R) out.
Proof.
  apply (pipeline_bounds_ordered [mkPoint 0 5%R; mkPoint 60000000000 7%R]
           [mkPoint 0 9%R]).
  repeat constructor; cbn; lra.
Defined.

(** X7. A bucket with a single baseline sample [c] has mean [c] and standard
    deviation 0 in the table, so a measured point of that bucket is flagged
    exactly when its value is 0 and [c >= BASELINE_ZERO_THRESHOLD]: no other
    value, however far from [c], is an anomaly. *)
Theorem single_sample_bucket (baseline_df measured_df : list TimePoint)
    (i : nat) (p : TimePoint) (c : R) :
  measured_df !! i = Some p →
  bucket_values (Calendar.minute_of_week (time p)) baseline_df = [c] →
  ∃ stats out v,
    calculate_baseline_stats (Some baseline_df) = Some stats
    ∧ detect_anomalies (Some measured_df) (Some stats) = Some out
    ∧ out !! i = Some v
    ∧ mean v = c ∧ std v = 0%R
    ∧ (is_anomaly v = true ↔
       measurement_value p = 0%R ∧ (c >= BASELINE_ZERO_THRESHOLD)%R).
Proof.
  intros Hp Hg.
  destruct (calculate_baseline_stats (Some baseline_df)) as [stats|] eqn:Hstats;
    [ | discriminate ].
  pose proof (baseline_table_lookup baseline_df
                (Calendar.minute_of_week (time p))) as Hlookup.
  rewrite Hstats, Hg in Hlookup. cbn [mbind option_bind] in Hlookup.
  rewrite decide_False in Hlookup by discriminate.
  assert (agg_mean [c] = c) as Hmean by (unfold agg_mean; cbn; field).
  rewrite Hmean in Hlookup. cbn in Hlookup.
  exists stats, (point_verdict stats <$> measured_df), (point_verdict stats p).
  split; [ reflexivity | ]. split; [ apply detect_anomalies_pointwise | ].
  split; [ rewrite list_lookup_fmap, Hp; reflexivity | ]. cbn.
  assert (point_mean stats p = c) as Hm
    by (unfold point_mean; rewrite Hlookup; reflexivity).
  assert (point_std stats p = 0%R) as Hs
    by (unfold point_std; rewrite Hlookup; reflexivity).
  split; [ exact Hm | ]. split; [ exact Hs | ].
  unfold point_deviation, point_zero. rewrite Hs, Hm.
  rewrite (bool_decide_eq_false_2 (0 > STD_DEV_EPSILON)%R)
    by (unfold STD_DEV_EPSILON; lra).
  rewrite andb_false_r. cbn [orb].
  rewrite andb_true_iff, !bool_decide_eq_true. reflexivity.
Qed.

Lemma single_sample_bucket_witness :
  ∃ stats out v,
    calculate_baseline_stats (Some [mkPoint 0 250%R]) = Some stats
    ∧ detect_anomalies (Some [mkPoint 0 900%R]) (Some stats) = Some out
    ∧ out !! 0%nat = Some v
    ∧ mean v = 250%R ∧ std v = 0%R
    ∧ (is_anomaly v = true ↔
       measurement_value (mkPoint 0 900%R) = 0%R
       ∧ (250 >= BASELINE_ZERO_THRESHOLD)%R).
Proof.
  apply (single_sample_bucket [mkPoint 0 250%R] [mkPoint 0 900%R] 0
           (mkPoint 0 900%R) 250); reflexivity.
Defined.

(** ** The alert state machine: counters and debouncing *)

Lemma step_counters df s row :
  anomaly_streak (step df s row).1
  = (if is_anomaly row then anomaly_streak s + 1
     else if bool_decide (anomaly_streak s > 0) then 0 else anomaly_streak s)
  ∧ normal_streak (step df s row).1
    = (if is_anomaly row then 0 else normal_streak s + 1).
Proof.
  unfold step. destruct (is_anomaly row).
  - destruct (bool_decide _ && negb _); [ | split; reflexivity ].
    destruct (alert_start_logic df row) as [|[[? ?] ?]]; split; reflexivity.
  - destruct (bool_decide (normal_streak s + 1 >= _) && _);
      [ | split; reflexivity ].
    destruct (alert_resolve_logic df s row); split; reflexivity.
Qed.

Lemma step_quiet df s row :
  alert_active s = false →
  (is_anomaly row = true →
   anomaly_streak s + 1 < CONSECUTIVE_MINUTES_THRESHOLD) →
  (step df s row).2 = [] ∧ alert_active (step df s row).1 = false.
Proof.
  intros Hact Hshort. unfold step. rewrite Hact.
  destruct (is_anomaly row).
  - rewrite bool_decide_eq_false_2 by (specialize (Hshort eq_refl); lia).
    split; reflexivity.
  - rewrite andb_false_r. split; reflexivity.
Qed.

Lemma reports_before_S df n row :
  df !! n = Some row →
  reports_before df (S n)
  = reports_before df n ++ (step df (state_after df n) row).2.
Proof.
  intros Hrow. unfold reports_before, state_after.
  rewrite (take_S_r _ _ _ Hrow), run_app. cbn [snd].
  rewrite run_cons. cbn [run fst snd]. rewrite app_nil_r. reflexivity.
Qed.

Lemma monitor_and_alert_reports df :
  monitor_and_alert (Some df)
  = reports_before df (length df)
    ++ (if alert_active (state_after df (length df))
        then [AlertStillActive
                (alert_start_timestamp (state_after df (length df)))
                (initial_anomaly_type (state_after df (length df)))]
        else []).
Proof.
  unfold monitor_and_alert, reports_before, state_after.
  rewrite take_ge by reflexivity.
  destruct (run df initial_state df) as [s reports]. reflexivity.
Qed.

Lemma state_after_streaks df n :
  (n ≤ length df)%nat →
  streak_of is_anomaly df n (anomaly_streak (state_after df n))
  ∧ streak_of is_normal df n (normal_streak (state_after df n))
  ∧ (anomaly_streak (state_after df n) = 0
     ∨ normal_streak (state_after df n) = 0).
Proof.
  induction n as [|n IH]; intros Hlen.
  - unfold state_after, initial_state. rewrite take_0. cbn [run fst].
    unfold streak_of. cbn [anomaly_streak normal_streak].
    split_and!; intros; lia.
  - destruct (lookup_lt_is_Some_2 df n) as [row Hrow]; [ lia | ].
    destruct IH as (Ha & Hn & _); [ lia | ].
    rewrite (state_after_S df n row Hrow).
    destruct (step_counters df (state_after df n) row) as [-> ->].
    destruct (is_anomaly row) eqn:Hflag.
    + split_and!.
      * eapply streak_of_incr; eassumption.
      * eapply streak_of_reset; [ eassumption | ].
        unfold is_normal. rewrite Hflag. reflexivity.
      * right. reflexivity.
    + assert ((if bool_decide (anomaly_streak (state_after df n) > 0) then 0
               else anomaly_streak (state_after df n)) = 0) as ->
        by (destruct Ha as [? _]; case_bool_decide; lia).
      split_and!.
      * eapply streak_of_reset; eassumption.
      * eapply streak_of_incr; [ eassumption | | eassumption ].
        unfold is_normal. rewrite Hflag. reflexivity.
      * left. reflexivity.
Qed.

(** X8. In every frame, after any number of rows, the two counters are the
    lengths of the runs that end there: [anomaly_streak] counts the anomalous
    rows since the last normal one, [normal_streak] the normal rows since the
    last anomalous one; neither is negative and one of them is 0. *)
Theorem streak_counters_count_runs (df : list Verdict) (n : nat) :
  (n ≤ length df)%nat →
  streak_of is_anomaly df n (anomaly_streak (state_after df n))
  ∧ streak_of is_normal df n (normal_streak (state_after df n))
  ∧ 0 ≤ anomaly_streak (state_after df n)
  ∧ 0 ≤ normal_streak (state_after df n)
  ∧ (anomaly_streak (state_after df n) = 0
     ∨ normal_streak (state_after df n) = 0).
Proof.
  intros Hlen. destruct (state_after_streaks df n Hlen) as (Ha & Hn & Hzero).
  split_and!; try assumption.
  - destruct Ha as [[? _] _]. assumption.
  - destruct Hn as [[? _] _]. assumption.
Qed.

Lemma streak_counters_count_runs_witness :
  streak_of is_anomaly duplicate_frame 25
    (anomaly_streak (state_after duplicate_frame 25))
  ∧ streak_of is_normal duplicate_frame 25
      (normal_streak (state_after duplicate_frame 25))
  ∧ 0 ≤ anomaly_streak (state_after duplicate_frame 25)
  ∧ 0 ≤ normal_streak (state_after duplicate_frame 25)
  ∧ (anomaly_streak (state_after duplicate_frame 25) = 0
     ∨ normal_streak (state_after duplicate_frame 25) = 0).
Proof.
  apply (streak_counters_count_runs duplicate_frame 25). vm_compute. lia.
Defined.

Lemma long_streak_window df n :
  (n ≤ length df)%nat →
  anomaly_streak (state_after df n) >= CONSECUTIVE_MINUTES_THRESHOLD →
  anomalous_window df (n - Z.to_nat CONSECUTIVE_MINUTES_THRESHOLD).
Proof.
  intros Hlen Hlong.
  destruct (state_after_streaks df n Hlen) as (((_ & Hc) & Hin & _) & _).
  unfold anomalous_window, CONSECUTIVE_MINUTES_THRESHOLD in *. intros j Hj.
  destruct (lookup_lt_is_Some_2 df j) as [r Hr]; [ lia | ].
  exists r. split; [ exact Hr | ]. apply (Hin j r); [ lia | exact Hr ].
Qed.

Lemma quiet_prefix df n :
  (∀ i, (i + Z.to_nat CONSECUTIVE_MINUTES_THRESHOLD ≤ n)%nat →
        ¬ anomalous_window df i) →
  (n ≤ length df)%nat →
  alert_active (state_after df n) = false ∧ reports_before df n = [].
Proof.
  induction n as [|n IH]; intros Hnone Hlen.
  - unfold state_after, reports_before. rewrite take_0. split; reflexivity.
  - destruct (lookup_lt_is_Some_2 df n) as [row Hrow]; [ lia | ].
    destruct IH as [Hact Hreports];
      [ intros i Hi; apply Hnone; lia | lia | ].
    rewrite (state_after_S df n row Hrow), (reports_before_S df n row Hrow).
    rewrite Hreports. cbn [app].
    apply and_comm, step_quiet; [ exact Hact | ]. intros Hflag.
    destruct (Z_lt_ge_dec (anomaly_streak (state_after df n) + 1)
                CONSECUTIVE_MINUTES_THRESHOLD) as [Hlt|Hge]; [ exact Hlt | ].
    exfalso.
    assert (anomaly_streak (state_after df (S n))
            >= CONSECUTIVE_MINUTES_THRESHOLD) as Hlong.
    { rewrite (state_after_S df n row Hrow).
      destruct (step_counters df (state_after df n) row) as [-> _].
      rewrite Hflag. exact Hge. }
    destruct (state_after_streaks df (S n) Hlen) as (((_ & Hc) & _) & _).
    apply (Hnone (S n - Z.to_nat CONSECUTIVE_MINUTES_THRESHOLD)%nat).
    + unfold CONSECUTIVE_MINUTES_THRESHOLD in *. lia.
    + apply long_streak_window; [ lia | exact Hlong ].
Qed.

(** X9. Debouncing: for a frame that has no [CONSECUTIVE_MINUTES_THRESHOLD]
    consecutive anomalous rows no report is printed at all, whatever its
    timestamps are. *)
Theorem no_long_streak_no_report (df : list Verdict) :
  (∀ i, ¬ anomalous_window df i) →
  monitor_and_alert (Some df) = [].
Proof.
  intros Hnone. rewrite monitor_and_alert_reports.
  destruct (quiet_prefix df (length df)) as [-> ->];
    [ intros i _; apply Hnone | reflexivity | reflexivity ].
Qed.

Lemma no_long_streak_no_report_witness :
  monitor_and_alert (Some flapping_frame) = [].
Proof.
  apply (no_long_streak_no_report flapping_frame).
  intros i Hwindow. unfold anomalous_window, CONSECUTIVE_MINUTES_THRESHOLD in *.
  destruct (decide (i ≤ 9)%nat) as [Hle|Hgt].
  - destruct (Hwindow 9%nat) as (r & Hr & Hflag); [ lia | ].
    vm_compute in Hr. injection Hr as <-. discriminate Hflag.
  - destruct (Hwindow (i + 9)%nat) as (r & Hr & _); [ lia | ].
    apply lookup_lt_Some in Hr.
    change (length flapping_frame) with 19%nat in Hr. lia.
Defined.

(** ** The alert state machine: lookups *)

Lemma elem_of_positions_from n ts key p :
  p ∈ positions_from n ts key ↔ ∃ j, p = (n + j)%nat ∧ ts !! j = Some key.
Proof.
  revert n. induction ts as [|t ts IH]; intros n; cbn [positions_from].
  - split; [ intros H; apply elem_of_nil in H; contradiction | ].
    intros (j & _ & Hj). discriminate.
  - destruct (decide (t = key)) as [->|Hne].
    + rewrite elem_of_cons, IH. split.
      * intros [-> | (j & -> & Hj)].
        -- exists 0%nat. split; [ lia | reflexivity ].
        -- exists (S j). split; [ lia | exact Hj ].
      * intros ([|j] & -> & Hj).
        -- left. lia.
        -- right. exists j. split; [ lia | exact Hj ].
    + rewrite IH. split.
      * intros (j & -> & Hj). exists (S j). split; [ lia | exact Hj ].
      * intros ([|j] & -> & Hj).
        -- cbn in Hj. congruence.
        -- exists j. split; [ lia | exact Hj ].
Qed.

Lemma positions_from_NoDup n ts key : NoDup (positions_from n ts key).
Proof.
  revert n. induction ts as [|t ts IH]; intros n; cbn [positions_from].
  - constructor.
  - destruct (decide (t = key)); [ | apply IH ].
    apply NoDup_cons. split; [ | apply IH ].
    intros (j & Hj & _)%elem_of_positions_from. lia.
Qed.

(** X10. The backtracking lookup of a row of the frame fails exactly when the
    timestamp of the row occurs at another position of the index as well: with
    a TypeError when the index is sorted (the lookup is a slice) and with a
    ValueError when it is not (the lookup is a mask). When the timestamp
    occurs only at position [i], the lookup answers
    [max(0, i - (CONSECUTIVE_MINUTES_THRESHOLD - 1))]. *)
Theorem lookup_fails_on_duplicates (df : list Verdict) (i : nat) (row : Verdict) :
  df !! i = Some row →
  (backtrack_lookup df row
   = inl (if is_monotonic_increasing (Index <$> df) then TypeError
          else ValueError)
   ∧ ∃ j r, j ≠ i ∧ df !! j = Some r ∧ Index r = Index row)
  ∨ (backtrack_lookup df row
     = inr (Z.max 0 (Z.of_nat i - (CONSECUTIVE_MINUTES_THRESHOLD - 1)))
     ∧ ∀ j r, df !! j = Some r → Index r = Index row → j = i).
Proof.
  intros Hrow. unfold backtrack_lookup, get_loc, mbind, Result_bind.
  pose proof (elem_of_positions_from 0 (Index <$> df) (Index row)) as Hin.
  pose proof (positions_from_NoDup 0 (Index <$> df) (Index row)) as Hnodup.
  assert (∀ j, j ∈ positions_from 0 (Index <$> df) (Index row) ↔
               ∃ r, df !! j = Some r ∧ Index r = Index row) as Hocc.
  { intros j. rewrite Hin. split.
    - intros (j' & -> & Hj). cbn [Nat.add]. rewrite list_lookup_fmap in Hj.
      destruct (df !! j') as [r|] eqn:Hr; [ | discriminate ].
      injection Hj as Hj. eauto.
    - intros (r & Hr & Heq). exists j. split; [ reflexivity | ].
      rewrite list_lookup_fmap, Hr. cbn. congruence. }
  assert (i ∈ positions_from 0 (Index <$> df) (Index row)) as Hi
    by (apply Hocc; eauto).
  destruct (positions_from 0 (Index <$> df) (Index row)) as [|a [|b rest]].
  - apply elem_of_nil in Hi. contradiction.
  - right. apply list_elem_of_singleton in Hi as <-. split; [ reflexivity | ].
    intros j r Hr Heq.
    assert (j ∈ [i]) as Hj by (apply Hocc; eauto).
    apply list_elem_of_singleton in Hj. exact Hj.
  - left. split;
      [ destruct (is_monotonic_increasing (Index <$> df)); reflexivity | ].
    apply NoDup_cons in Hnodup as [Hab _].
    assert (a ≠ b) as Hne by (intros ->; apply Hab; left).
    destruct (decide (a = i)) as [->|Ha].
    + destruct (proj1 (Hocc b)) as (r & Hr & Heq); [ right; left | ].
      exists b, r. split_and!; [ congruence | exact Hr | exact Heq ].
    + destruct (proj1 (Hocc a)) as (r & Hr & Heq); [ left | ].
      exists a, r. split_and!; [ exact Ha | exact Hr | exact Heq ].
Qed.

Lemma lookup_fails_on_duplicates_witness :
  (backtrack_lookup unsorted_frame (sample_row 5 true)
   = inl (if is_monotonic_increasing (Index <$> unsorted_frame) then TypeError
          else ValueError)
   ∧ ∃ j r, j ≠ 0%nat ∧ unsorted_frame !! j = Some r
            ∧ Index r = Index (sample_row 5 true))
  ∨ (backtrack_lookup unsorted_frame (sample_row 5 true)
     = inr (Z.max 0 (Z.of_nat 0 - (CONSECUTIVE_MINUTES_THRESHOLD - 1)))
     ∧ ∀ j r, unsorted_frame !! j = Some r →
              Index r = Index (sample_row 5 true) → j = 0%nat).
Proof.
  apply (lookup_fails_on_duplicates unsorted_frame 0 (sample_row 5 true)).
  vm_compute. reflexivity.
Defined.

(** The two ways the lookup fails: a slice in the sorted [duplicate_frame], a
    mask in [unsorted_frame]; a timestamp that occurs once is found even
    there. *)
Example lookup_failures :
  backtrack_lookup duplicate_frame (sample_row 19 false) = inl TypeError
  ∧ backtrack_lookup unsorted_frame (sample_row 5 true) = inl ValueError
  ∧ backtrack_lookup unsorted_frame (sample_row 3 true) = inr 0.
Proof. repeat split; vm_compute; reflexivity. Qed.

Lemma monitor_no_error df :
  strictly_ascending (Index <$> df) = true →
  Forall (λ e, is_error e = false) (monitor_and_alert (Some df)).
Proof.
  intros Hasc. unfold monitor_and_alert.
  pose proof (run_no_error df df initial_state Hasc (reflexivity _)) as Hok.
  destruct (run df initial_state df) as [s reports]. cbn [snd] in Hok.
  apply Forall_app. split; [ exact Hok | ].
  destruct (alert_active s); repeat constructor.
Qed.

Lemma strictly_ascending_lookup ts i j a b :
  strictly_ascending ts = true →
  ts !! i = Some a → ts !! j = Some b → (i < j)%nat → a < b.
Proof.
  revert i j. induction ts as [|t ts IH]; intros i j Hasc Hi Hj Hlt;
    [ discriminate | ].
  destruct j as [|j]; [ lia | ]. cbn in Hj.
  destruct i as [|i]; cbn in Hi.
  - injection Hi as ->. eapply strictly_ascending_head; eassumption.
  - apply (IH i j); [ eapply strictly_ascending_tail; eassumption | | | lia ];
      assumption.
Qed.

Lemma reports_before_estimates df n :
  strictly_ascending (Index <$> df) = true →
  (n ≤ length df)%nat →
  Forall (λ e, is_error e = false ∧ estimate_nine_back df e)
         (reports_before df n).
Proof.
  intros Hasc. induction n as [|n IH]; intros Hlen.
  - unfold reports_before. rewrite take_0. constructor.
  - destruct (lookup_lt_is_Some_2 df n) as [row Hrow]; [ lia | ].
    rewrite (reports_before_S df n row Hrow).
    apply Forall_app. split; [ apply IH; lia | ].
    destruct (state_after_invariant df n Hasc)
      as (((_ & Ha) & _) & ((_ & Hn) & _) & Hinactive & Hactive); [ lia | ].
    destruct (backtracked_lookup df n row Hrow) as [first Hfirst].
    unfold step.
    rewrite (alert_start_logic_ascending df n row first Hasc Hrow Hfirst).
    rewrite (alert_resolve_logic_ascending df _ n row first Hasc Hrow Hfirst).
    assert (∀ c, c + 1 >= CONSECUTIVE_MINUTES_THRESHOLD →
                 c < CONSECUTIVE_MINUTES_THRESHOLD → c ≤ Z.of_nat n →
                 time_at df (backtracked n) (Index first)
                 ∧ time_at df (backtracked n
                               + Z.to_nat (CONSECUTIVE_MINUTES_THRESHOLD - 1))
                     (Index row)) as Hback.
    { intros c Hge Hlt Hle. unfold time_at. split.
      - rewrite list_lookup_fmap, Hfirst. reflexivity.
      - replace (backtracked n + Z.to_nat (CONSECUTIVE_MINUTES_THRESHOLD - 1))%nat
          with n
          by (unfold backtracked, CONSECUTIVE_MINUTES_THRESHOLD in *; lia).
        rewrite list_lookup_fmap, Hrow. reflexivity. }
    destruct (is_anomaly row); case_bool_decide;
      destruct (alert_active (state_after df n)) eqn:Hact; cbn;
      repeat constructor; cbn.
    + exists (backtracked n). eapply Hback; [ eassumption | auto | exact Ha ].
    + exists (backtracked n). eapply Hback; [ eassumption | auto | exact Hn ].
Qed.

(** X11. With strictly ascending timestamps no error report is ever printed,
    and every AlertStarted and AlertResolved gives as its estimate the
    timestamp found exactly [CONSECUTIVE_MINUTES_THRESHOLD - 1] rows before
    the row it was detected at. *)
Theorem ascending_reports_estimates (df : list Verdict) :
  strictly_ascending (Index <$> df) = true →
  Forall (λ e, is_error e = false ∧ estimate_nine_back df e)
         (monitor_and_alert (Some df)).
Proof.
  intros Hasc. rewrite monitor_and_alert_reports.
  apply Forall_app. split.
  - apply reports_before_estimates; [ exact Hasc | reflexivity ].
  - destruct (alert_active _); repeat constructor.
Qed.

Lemma ascending_reports_estimates_witness :
  Forall (λ e, is_error e = false ∧ estimate_nine_back outage_frame e)
         (monitor_and_alert (Some outage_frame)).
Proof.
  apply (ascending_reports_estimates outage_frame). vm_compute. reflexivity.
Defined.

(** ** The alert state machine: the stream of reports *)

Lemma open_alert_while_inactive df rows :
  alert_active (run df initial_state rows).1 = false →
  open_alert (run df initial_state rows).2 = None.
Proof.
  induction rows as [|row rows IH] using rev_ind; [ reflexivity | ].
  rewrite run_app, run_cons. cbn [run fst snd] in *. rewrite app_nil_r.
  destruct (step_shape df (run df initial_state rows).1 row); cbn;
    try discriminate; intros Hact.
  - rewrite app_nil_r. apply IH. exact Hact.
  - unfold open_alert. rewrite last_snoc. reflexivity.
  - unfold open_alert. rewrite last_snoc. reflexivity.
  - unfold open_alert. rewrite last_snoc. reflexivity.
Qed.

Lemma run_no_still_active df rows s :
  Forall (λ e, is_still_active e = false) (run df s rows).2.
Proof.
  revert s. induction rows as [|row rows IH]; intros s; [ constructor | ].
  rewrite run_cons. cbn [snd]. apply Forall_app. split; [ | apply IH ].
  destruct (step_shape df s row); repeat constructor.
Qed.

(** X12. The closing AlertStillActive is printed exactly when the last report
    of the loop is an AlertStarted, and it repeats the estimated start and the
    initial type of that report; it is never printed inside the loop. *)
Theorem closing_report (df : list Verdict) :
  ∃ reports,
    Forall (λ e, is_still_active e = false) reports
    ∧ monitor_and_alert (Some df)
      = reports ++ match open_alert reports with
                   | Some (start, ty) =>
                       [AlertStillActive (Some start) (Some ty)]
                   | None => []
                   end.
Proof.
  exists (run df initial_state df).2. split; [ apply run_no_still_active | ].
  unfold monitor_and_alert.
  pose proof (open_alert_while_active df df) as Hactive.
  pose proof (open_alert_while_inactive df df) as Hinactive.
  cbv zeta in Hactive.
  destruct (run df initial_state df) as [s reports]. cbn [fst snd] in *.
  destruct (alert_active s).
  - destruct Hactive as (start & ty & -> & -> & ->); reflexivity.
  - rewrite Hinactive by reflexivity. reflexivity.
Qed.

Lemma run_detected_at df rows s :
  omap detected_at (run df s rows).2 `sublist_of` Index <$> rows.
Proof.
  revert s. induction rows as [|row rows IH]; intros s; [ constructor | ].
  rewrite run_cons. cbn [snd fmap list_fmap]. specialize (IH (step df s row).1).
  destruct (step_shape df s row); cbn;
    first [ apply sublist_cons, IH | apply sublist_skip, IH ].
Qed.

(** X13. Reports follow the rows: the detection times of the reports, in the
    order they are printed, are picked from the index in order, at most one
    report per row. *)
Theorem reports_follow_rows (df : list Verdict) :
  omap detected_at (monitor_and_alert (Some df)) `sublist_of` Index <$> df.
Proof.
  unfold monitor_and_alert.
  pose proof (run_detected_at df df initial_state) as Hsub.
  destruct (run df initial_state df) as [s reports]. cbn [snd] in Hsub.
  rewrite omap_app.
  replace (omap detected_at
             (if alert_active s
              then [AlertStillActive (alert_start_timestamp s)
                      (initial_anomaly_type s)]
              else [])) with (@nil Z)
    by (destruct (alert_active s); reflexivity).
  rewrite app_nil_r. exact Hsub.
Qed.

Lemma run_attributed df rows s tail :
  active_has_provenance s →
  attributed (state_open (run df s rows).1) tail = true →
  attributed (state_open s) ((run df s rows).2 ++ tail) = true.
Proof.
  revert s. induction rows as [|row rows IH]; intros s Hs Htail;
    [ exact Htail | ].
  rewrite run_cons in *. cbn [fst snd] in *. rewrite <- app_assoc.
  specialize (IH (step df s row).1).
  destruct (step_shape df s row)
    as [ | ? ? ? Ha _ | ? Ha _ | ? ? Ha _ | ? ? Ha _ ].
  - exact (IH Hs Htail).
  - unfold state_open at 1. rewrite Ha. cbn [app attributed].
    apply IH; [ | exact Htail ].
    intros _. split; eexists; reflexivity.
  - unfold state_open at 1. rewrite Ha. cbn [app attributed].
    apply IH; [ discriminate | exact Htail ].
  - destruct (Hs Ha) as [[start Hstart] [ty Hty]].
    unfold state_open at 1. rewrite Ha, Hstart, Hty. cbn [app attributed].
    rewrite bool_decide_eq_true_2 by (split; reflexivity). cbn [andb].
    apply IH; [ discriminate | exact Htail ].
  - cbn [app attributed]. apply IH; [ discriminate | exact Htail ].
Qed.

(** X14. In every frame each AlertResolved names, as the original start and
    type, the estimated start and initial type of the AlertStarted printed
    before it, and there is such a report: a resolution is never printed for
    an alert that was not announced. *)
Theorem resolved_reports_attributed (df : list Verdict) :
  attributed None (monitor_and_alert (Some df)) = true.
Proof.
  unfold monitor_and_alert.
  pose proof (run_attributed df df initial_state) as Hrun.
  destruct (run df initial_state df) as [s reports]. cbn [fst snd] in Hrun.
  apply Hrun; [ discriminate | ].
  destruct (alert_active s); reflexivity.
Qed.

(** ** The alert state machine: the first alert *)

Lemma reports_before_prefix df n m :
  (n ≤ m)%nat → ∃ rest, reports_before df m = reports_before df n ++ rest.
Proof.
  intros Hle. unfold reports_before.
  replace (take m df) with (take n df ++ drop n (take m df)).
  - rewrite run_app. eexists. reflexivity.
  - rewrite <- (take_drop n (take m df)) at 2.
    rewrite take_take, Nat.min_l by exact Hle. reflexivity.
Qed.

Lemma first_window_reports df i first row :
  strictly_ascending (Index <$> df) = true →
  anomalous_window df i →
  (∀ k, (k < i)%nat → ¬ anomalous_window df k) →
  df !! i = Some first → df !! (i + 9)%nat = Some row →
  reports_before df (S (i + 9))
  = [AlertStarted (Index row) (Index first) (anomaly_type first)
       (measurement_value (point first))
       (measurement_value (point row)) (mean row)
       (lower_bound row) (upper_bound row)].
Proof.
  intros Hasc Hwindow Hearlier Hfirst Hrow.
  pose proof (lookup_lt_Some _ _ _ Hrow) as Hlen.
  destruct (quiet_prefix df (i + 9)) as [Hact Hquiet].
  { intros k Hk. apply Hearlier.
    unfold CONSECUTIVE_MINUTES_THRESHOLD in Hk. lia. }
  { lia. }
  rewrite (reports_before_S df (i + 9) row Hrow), Hquiet. cbn [app].
  destruct (state_after_streaks df (i + 9)) as ((Hc & Hin & Hout) & _);
    [ lia | ].
  assert (is_anomaly row = true) as Hflag.
  { destruct (Hwindow (i + 9)%nat) as (r & Hr & Hr');
      [ unfold CONSECUTIVE_MINUTES_THRESHOLD; lia | congruence ]. }
  assert (anomaly_streak (state_after df (i + 9)) = 9) as Hnine.
  { destruct (Z_lt_ge_dec (anomaly_streak (state_after df (i + 9))) 9)
      as [Hshort|Hge].
    - exfalso.
      set (j := Z.to_nat (Z.of_nat (i + 9)
                          - anomaly_streak (state_after df (i + 9)) - 1)).
      destruct (Hwindow j) as (r & Hr & Hr');
        [ subst j; unfold CONSECUTIVE_MINUTES_THRESHOLD; lia | ].
      assert (is_anomaly r = false) as Hnormal
        by (apply (Hout j r); [ subst j; lia | exact Hr ]).
      congruence.
    - destruct (Z_lt_ge_dec (anomaly_streak (state_after df (i + 9))) 10)
        as [Hlt|Hlong]; [ lia | ].
      exfalso. apply (Hearlier (i + 9 - Z.to_nat CONSECUTIVE_MINUTES_THRESHOLD)%nat).
      + unfold CONSECUTIVE_MINUTES_THRESHOLD. lia.
      + apply long_streak_window;
          [ lia | unfold CONSECUTIVE_MINUTES_THRESHOLD; lia ]. }
  assert (backtracked (i + 9) = i) as Hback
    by (unfold backtracked, CONSECUTIVE_MINUTES_THRESHOLD; lia).
  unfold step. rewrite Hflag, Hact, Hnine.
  rewrite (alert_start_logic_ascending df (i + 9) row first Hasc Hrow)
    by (rewrite Hback; exact Hfirst).
  reflexivity.
Qed.

(** X15. Liveness of the debouncing, with strictly ascending timestamps: when
    rows [i], ..., [i + 9] are the first [CONSECUTIVE_MINUTES_THRESHOLD]
    consecutive anomalous rows of the frame, the first report printed is the
    AlertStarted detected at row [i + 9], with the time and the type of row
    [i] as estimated start and initial type. *)
Theorem first_streak_raises_alert (df : list Verdict) (i : nat) :
  strictly_ascending (Index <$> df) = true →
  anomalous_window df i →
  (∀ k, (k < i)%nat → ¬ anomalous_window df k) →
  ∃ first row,
    df !! i = Some first ∧ df !! (i + 9)%nat = Some row
    ∧ head (monitor_and_alert (Some df))
      = Some (AlertStarted (Index row) (Index first) (anomaly_type first)
                (measurement_value (point first))
                (measurement_value (point row)) (mean row)
                (lower_bound row) (upper_bound row)).
Proof.
  intros Hasc Hwindow Hearlier.
  destruct (Hwindow i) as (first & Hfirst & _);
    [ unfold CONSECUTIVE_MINUTES_THRESHOLD; lia | ].
  destruct (Hwindow (i + 9)%nat) as (row & Hrow & _);
    [ unfold CONSECUTIVE_MINUTES_THRESHOLD; lia | ].
  exists first, row. split; [ exact Hfirst | ]. split; [ exact Hrow | ].
  rewrite monitor_and_alert_reports.
  destruct (reports_before_prefix df (S (i + 9)) (length df)) as [rest ->].
  { apply lookup_lt_Some in Hrow. lia. }
  rewrite (first_window_reports df i first row Hasc Hwindow Hearlier Hfirst Hrow).
  reflexivity.
Qed.

Lemma first_streak_raises_alert_witness :
  ∃ first row,
    outage_frame !! 0%nat = Some first ∧ outage_frame !! (0 + 9)%nat = Some row
    ∧ head (monitor_and_alert (Some outage_frame))
      = Some (AlertStarted (Index row) (Index first) (anomaly_type first)
                (measurement_value (point first))
                (measurement_value (point row)) (mean row)
                (lower_bound row) (upper_bound row)).
Proof.
  apply (first_streak_raises_alert outage_frame 0).
  - vm_compute. reflexivity.
  - intros j Hj. unfold CONSECUTIVE_MINUTES_THRESHOLD in Hj.
    assert (j < 10)%nat as Hlt by lia. clear Hj.
    do 10 (destruct j as [|j];
           [ eexists; split; [ reflexivity | reflexivity ] | ]).
    lia.
  - intros k Hk. lia.
Defined.

(** ** The pipeline *)

Lemma main_frames (baseline_df measured_df : list TimePoint) :
  ∃ stats,
    calculate_baseline_stats (Some baseline_df) = Some stats
    ∧ main (Some baseline_df) (Some measured_df)
      = monitor_and_alert (Some (point_verdict stats <$> measured_df)).
Proof.
  unfold main.
  destruct (calculate_baseline_stats (Some baseline_df)) as [stats|] eqn:Hstats;
    [ | discriminate ].
  exists stats. split; [ reflexivity | ].
  rewrite detect_anomalies_pointwise. reflexivity.
Qed.

Lemma Index_point_verdict stats (df : list TimePoint) :
  Index <$> (point_verdict stats <$> df) = time <$> df.
Proof. rewrite <- list_fmap_compose. reflexivity. Qed.

Lemma monitor_alternates_with_failures df :
  alternates_with_failures false (monitor_and_alert (Some df)) = true.
Proof.
  unfold monitor_and_alert.
  pose proof (run_alternates_with_failures df df initial_state) as Hrun.
  destruct (run df initial_state df) as [s reports]. cbn [fst snd] in Hrun.
  apply Hrun. destruct (alert_active s); reflexivity.
Qed.

(** X16. End to end, for a measured file whose timestamps are strictly
    ascending: the pipeline prints no error report, its AlertStarted and
    AlertResolved reports alternate beginning with an AlertStarted, and the
    detection times of its reports are timestamps of the measured file, in
    file order. *)
Theorem main_on_ascending_measurements (baseline_df measured_df : list TimePoint) :
  strictly_ascending (time <$> measured_df) = true →
  Forall (λ e, is_error e = false)
         (main (Some baseline_df) (Some measured_df))
  ∧ alternates false (main (Some baseline_df) (Some measured_df)) = true
  ∧ omap detected_at (main (Some baseline_df) (Some measured_df))
    `sublist_of` time <$> measured_df.
Proof.
  intros Hasc.
  destruct (main_frames baseline_df measured_df) as (stats & _ & ->).
  rewrite <- (Index_point_verdict stats) in Hasc.
  pose proof (monitor_no_error _ Hasc) as Hok.
  split_and!.
  - exact Hok.
  - rewrite (alternates_without_errors _ _ Hok).
    apply monitor_alternates_with_failures.
  - rewrite <- (Index_point_verdict stats).
    unfold monitor_and_alert.
    pose proof (run_detected_at (point_verdict stats <$> measured_df)
                  (point_verdict stats <$> measured_df) initial_state) as Hsub.
    destruct (run _ initial_state _) as [s reports]. cbn [snd] in Hsub.
    rewrite omap_app.
    destruct (alert_active s); cbn [omap list_omap detected_at];
      rewrite app_nil_r; exact Hsub.
Qed.

Lemma main_on_ascending_measurements_witness :
  Forall (λ e, is_error e = false)
         (main (Some (ten_minutes 250)) (Some (ten_minutes 0)))
  ∧ alternates false (main (Some (ten_minutes 250)) (Some (ten_minutes 0)))
    = true
  ∧ omap detected_at (main (Some (ten_minutes 250)) (Some (ten_minutes 0)))
    `sublist_of` time <$> ten_minutes 0.
Proof.
  apply (main_on_ascending_measurements (ten_minutes 250) (ten_minutes 0)).
  reflexivity.
Defined.

Lemma point_verdict_absent stats p :
  stats !! Calendar.minute_of_week (time p) = None →
  is_anomaly (point_verdict stats p) = false.
Proof.
  intros Hk. cbn. unfold point_deviation, point_zero, point_mean, point_std.
  rewrite Hk. cbn.
  rewrite (bool_decide_eq_false_2 (0 > STD_DEV_EPSILON)%R)
    by (unfold STD_DEV_EPSILON; lra).
  rewrite (bool_decide_eq_false_2 (0 >= BASELINE_ZERO_THRESHOLD)%R)
    by (unfold BASELINE_ZERO_THRESHOLD; lra).
  rewrite !andb_false_r. reflexivity.
Qed.

(** X17. End to end: when no measured point falls into a bucket that has
    baseline points (an empty baseline file, or a baseline that covers other
    minutes of the week), the pipeline prints no report: no alert, no
    resolution, no error report and no closing warning, whatever the measured
    values are and however long they last. *)
Theorem main_silent_off_baseline (baseline_df measured_df : list TimePoint) :
  (∀ p, p ∈ measured_df →
        bucket_values (Calendar.minute_of_week (time p)) baseline_df = []) →
  main (Some baseline_df) (Some measured_df) = [].
Proof.
  intros Hoff.
  destruct (main_frames baseline_df measured_df) as (stats & Hstats & ->).
  rewrite monitor_and_alert_reports.
  destruct (quiet_prefix (point_verdict stats <$> measured_df)
              (length (point_verdict stats <$> measured_df))) as [-> ->];
    [ | reflexivity | reflexivity ].
  intros i _ Hwindow.
  destruct (Hwindow i) as (r & Hr & Hflag);
    [ unfold CONSECUTIVE_MINUTES_THRESHOLD; lia | ].
  rewrite list_lookup_fmap in Hr.
  destruct (measured_df !! i) as [p|] eqn:Hp; [ | discriminate ].
  injection Hr as <-.
  rewrite point_verdict_absent in Hflag; [ discriminate | ].
  pose proof (baseline_table_lookup baseline_df
                (Calendar.minute_of_week (time p))) as Hlookup.
  rewrite Hstats in Hlookup. cbn [mbind option_bind] in Hlookup.
  rewrite Hlookup, decide_True; [ reflexivity | ].
  apply Hoff. eapply list_elem_of_lookup_2. exact Hp.
Qed.

Ltac bucket_of_minute k v :=
  destruct (decide (k = v)) as [->|?]; [ vm_compute; reflexivity | ].

Lemma main_silent_off_baseline_witness :
  main (Some (ten_minutes 250)) (Some (later_minutes 0)) = [].
Proof.
  apply (main_silent_off_baseline (ten_minutes 250) (later_minutes 0)).
  intros p Hp. unfold later_minutes in Hp.
  apply list_elem_of_fmap in Hp as (k & -> & Hk).
  apply elem_of_seqZ in Hk.
  bucket_of_minute k 10. bucket_of_minute k 11. bucket_of_minute k 12.
  bucket_of_minute k 13. bucket_of_minute k 14. bucket_of_minute k 15.
  bucket_of_minute k 16. bucket_of_minute k 17. bucket_of_minute k 18.
  bucket_of_minute k 19. lia.
Defined.

Lemma point_verdict_dropout baseline_df stats p :
  calculate_baseline_stats (Some baseline_df) = Some stats →
  measurement_value p = 0%R →
  bucket_values (Calendar.minute_of_week (time p)) baseline_df ≠ [] →
  (arithmetic_mean (bucket_values (Calendar.minute_of_week (time p)) baseline_df)
   >= BASELINE_ZERO_THRESHOLD)%R →
  is_anomaly (point_verdict stats p) = true
  ∧ anomaly_type (point_verdict stats p) = Zero
  ∧ mean (point_verdict stats p)
    = arithmetic_mean
        (bucket_values (Calendar.minute_of_week (time p)) baseline_df).
Proof.
  intros Hstats Hvalue Hg Hmean.
  pose proof (baseline_table_lookup baseline_df
                (Calendar.minute_of_week (time p))) as Hlookup.
  rewrite Hstats in Hlookup. cbn [mbind option_bind] in Hlookup.
  rewrite decide_False in Hlookup by exact Hg.
  assert (point_mean stats p
          = arithmetic_mean
              (bucket_values (Calendar.minute_of_week (time p)) baseline_df))
    as Hm by (unfold point_mean; rewrite Hlookup; reflexivity).
  assert (point_zero stats p = true) as Hzero.
  { unfold point_zero. rewrite Hm.
    rewrite !bool_decide_eq_true_2 by assumption. reflexivity. }
  cbn. unfold point_type. rewrite Hzero, orb_true_r.
  split_and!; [ reflexivity | reflexivity | exact Hm ].
Qed.

(** X18. End to end: when the measured file has strictly ascending timestamps
    and its first ten points are dropouts (value 0 in buckets whose baseline
    mean is at least [BASELINE_ZERO_THRESHOLD]), the first report of the
    pipeline is an AlertStarted of type Zero, detected at the tenth point and
    estimated at the first. *)
Theorem main_reports_dropout (baseline_df measured_df : list TimePoint) :
  strictly_ascending (time <$> measured_df) = true →
  (∀ j, (j < 10)%nat →
        ∃ p, measured_df !! j = Some p
             ∧ measurement_value p = 0%R
             ∧ bucket_values (Calendar.minute_of_week (time p)) baseline_df ≠ []
             ∧ (arithmetic_mean
                  (bucket_values (Calendar.minute_of_week (time p)) baseline_df)
                >= BASELINE_ZERO_THRESHOLD)%R) →
  ∃ first tenth lower upper,
    measured_df !! 0%nat = Some first ∧ measured_df !! 9%nat = Some tenth
    ∧ head (main (Some baseline_df) (Some measured_df))
      = Some (AlertStarted (time tenth) (time first) Zero 0 0
                (arithmetic_mean
                   (bucket_values (Calendar.minute_of_week (time tenth))
                      baseline_df))
                lower upper).
Proof.
  intros Hasc Hdrop.
  destruct (main_frames baseline_df measured_df) as (stats & Hstats & ->).
  rewrite <- (Index_point_verdict stats) in Hasc.
  destruct (Hdrop 0%nat) as (first & Hfirst & Hv0 & Hg0 & Hm0); [ lia | ].
  destruct (Hdrop 9%nat) as (tenth & Htenth & Hv9 & Hg9 & Hm9); [ lia | ].
  exists first, tenth,
    (lower_bound (point_verdict stats tenth)),
    (upper_bound (point_verdict stats tenth)).
  split; [ exact Hfirst | ]. split; [ exact Htenth | ].
  destruct (point_verdict_dropout baseline_df stats first Hstats Hv0 Hg0 Hm0)
    as (_ & Hty0 & _).
  destruct (point_verdict_dropout baseline_df stats tenth Hstats Hv9 Hg9 Hm9)
    as (_ & _ & Hmean9).
  assert (anomalous_window (point_verdict stats <$> measured_df) 0) as Hwindow.
  { intros j Hj. unfold CONSECUTIVE_MINUTES_THRESHOLD in Hj.
    destruct (Hdrop j) as (p & Hp & Hv & Hg & Hm); [ lia | ].
    exists (point_verdict stats p).
    split; [ rewrite list_lookup_fmap, Hp; reflexivity | ].
    apply (point_verdict_dropout baseline_df stats p Hstats Hv Hg Hm). }
  rewrite monitor_and_alert_reports.
  destruct (reports_before_prefix (point_verdict stats <$> measured_df)
              (S (0 + 9))
              (length (point_verdict stats <$> measured_df))) as [rest ->].
  { rewrite length_fmap. apply lookup_lt_Some in Htenth. lia. }
  rewrite (first_window_reports (point_verdict stats <$> measured_df) 0
             (point_verdict stats first) (point_verdict stats tenth) Hasc Hwindow).
  - rewrite Hty0, Hmean9. cbn [app head point_verdict point measurement_value
                               Index time].
    unfold Index. cbn [point]. rewrite Hv0, Hv9. reflexivity.
  - intros k Hk. lia.
  - rewrite list_lookup_fmap, Hfirst. reflexivity.
  - change (0 + 9)%nat with 9%nat.
    rewrite list_lookup_fmap, Htenth. reflexivity.
Qed.

Lemma main_reports_dropout_witness :
  ∃ first tenth lower upper,
    ten_minutes 0 !! 0%nat = Some first ∧ ten_minutes 0 !! 9%nat = Some tenth
    ∧ head (main (Some (ten_minutes 250)) (Some (ten_minutes 0)))
      = Some (AlertStarted (time tenth) (time first) Zero 0 0
                (arithmetic_mean
                   (bucket_values (Calendar.minute_of_week (time tenth))
                      (ten_minutes 250)))
                lower upper).
Proof.
  apply (main_reports_dropout (ten_minutes 250) (ten_minutes 0)).
  - reflexivity.
  - intros j Hj.
    do 10 (destruct j as [|j];
           [ eexists; split; [ reflexivity | ]; split; [ reflexivity | ];
             vm_compute; split; [ discriminate | lra ] | ]).
    lia.
Defined.

(** The reports of the pipeline for ten minutes of dropout against a baseline
    of 250 per minute: the alert is raised at the tenth minute, estimated at
    the first, and is still active at the end. *)
Example main_dropout_reports :
  ∃ mean lower upper,
    main (Some (ten_minutes 250)) (Some (ten_minutes 0))
    = [AlertStarted (9 * Calendar.ns_per_minute) 0 Zero 0 0 mean lower upper;
       AlertStillActive (Some 0) (Some Zero)].
Proof.
  destruct (main_frames (ten_minutes 250) (ten_minutes 0))
    as (stats & Hstats & ->).
  set (df := point_verdict stats <$> ten_minutes 0).
  assert (strictly_ascending (Index <$> df) = true) as Hasc
    by (subst df; rewrite Index_point_verdict; reflexivity).
  assert (∀ j, (j < 10)%nat →
               ∃ p, ten_minutes 0 !! j = Some p
                    ∧ is_anomaly (point_verdict stats p) = true
                    ∧ anomaly_type (point_verdict stats p) = Zero) as Hrows.
  { intros j Hj.
    do 10 (destruct j as [|j];
           [ eexists; split; [ reflexivity | ];
             match goal with
             | |- is_anomaly (point_verdict stats ?p) = true ∧ _ =>
                 destruct (point_verdict_dropout (ten_minutes 250) stats p
                             Hstats) as (Hflag & Hty & _);
                 [ reflexivity | vm_compute; discriminate | vm_compute; lra
                 | split; assumption ]
             end | ]).
    lia. }
  assert (anomalous_window df 0) as Hwindow.
  { intros j Hj. unfold CONSECUTIVE_MINUTES_THRESHOLD in Hj.
    destruct (Hrows j) as (p & Hp & Hflag & _); [ lia | ].
    exists (point_verdict stats p). split; [ | exact Hflag ].
    subst df. rewrite list_lookup_fmap, Hp. reflexivity. }
  destruct (Hrows 0%nat) as (first & Hfirst & _ & Hty); [ lia | ].
  destruct (Hrows 9%nat) as (tenth & Htenth & _); [ lia | ].
  injection Hfirst as <-. injection Htenth as <-.
  pose proof (first_window_reports df 0 _ _ Hasc Hwindow
                ltac:(intros k Hk; lia) eq_refl eq_refl) as Hreports.
  rewrite monitor_and_alert_reports.
  change (length df) with (S (0 + 9)). rewrite Hreports.
  pose proof (open_alert_while_active df (take (S (0 + 9)) df)) as Hactive.
  pose proof (open_alert_while_inactive df (take (S (0 + 9)) df)) as Hinactive.
  cbv zeta in Hactive.
  fold (state_after df (S (0 + 9))) (reports_before df (S (0 + 9)))
    in Hactive, Hinactive.
  rewrite Hreports in Hactive, Hinactive.
  destruct (alert_active (state_after df (S (0 + 9)))).
  - destruct Hactive as (start & ty & -> & -> & Hopen); [ reflexivity | ].
    injection Hopen as <- <-.
    cbn [anomaly_type point_verdict] in Hty |- *. rewrite !Hty.
    eexists _, _, _. reflexivity.
  - discriminate Hinactive. reflexivity.
Qed.
